(** * Daily Menu: the recommender and the visit store

    A shallow embedding of [recommender.py] and of the visit operations of
    [database.py].

    Conventions of the embedding.
    - Python numbers are exact: integers are [Z], floats are rationals [Q]
      compared with [==]; the builtin [round] is rounding to the nearest
      decimal with ties to even on the exact value.
    - A pandas DataFrame is the list of its rows, in index order.
    - The system clock [datetime.now()] is an explicit argument [now].
    - A raised exception is the [Raise] result of the [exn] monad.
    - [DataFrame.sort_values] is an interface ([Sorter]): the source asks for
      the default sort kind, whose order among equal keys pandas leaves
      open. *)

From Stdlib Require Import ZArith QArith Qround Qabs Bool List String Ascii.
From Stdlib Require Import Lia Lqa Permutation Sorted.
Import ListNotations.

Local Open Scope Z_scope.

(** ** The calendar: the part of [datetime] the program uses *)

Module Calendar.

(** A [datetime]: the proleptic Gregorian ordinal of its date (day 1 is
    0001-01-01, as [date.toordinal]) and the second of the day. *)
Record datetime : Set := mk_datetime { toordinal : Z; second : Z }.

Definition is_leap (y : Z) : bool :=
  (y mod 4 =? 0) && (negb (y mod 100 =? 0) || (y mod 400 =? 0)).

Definition days_before_year (y : Z) : Z :=
  let y' := y - 1 in y' * 365 + y' / 4 - y' / 100 + y' / 400.

Definition days_in_month (y m : Z) : Z :=
  if m =? 2 then (if is_leap y then 29 else 28)
  else if (m =? 4) || (m =? 6) || (m =? 9) || (m =? 11) then 30 else 31.

Definition table_days_before_month : list Z :=
  [0; 0; 31; 59; 90; 120; 151; 181; 212; 243; 273; 304; 334].

Definition table_days_in_month : list Z :=
  [0; 31; 28; 31; 30; 31; 30; 31; 31; 30; 31; 30; 31].

Definition b2z (b : bool) : Z := if b then 1 else 0.

Definition days_before_month (y m : Z) : Z :=
  nth (Z.to_nat m) table_days_before_month 0 + b2z ((2 <? m) && is_leap y).

Definition ymd2ord (y m d : Z) : Z :=
  days_before_year y + days_before_month y m + d.

(** [_ord2ymd] of the datetime module: 400-, 100-, 4- and 1-year cycles. *)
Definition ord2ymd (n0 : Z) : Z * Z * Z :=
  let n := n0 - 1 in
  let n400 := n / 146097 in let n := n mod 146097 in
  let year := n400 * 400 + 1 in
  let n100 := n / 36524 in let n := n mod 36524 in
  let n4 := n / 1461 in let n := n mod 1461 in
  let n1 := n / 365 in let n := n mod 365 in
  let year := year + n100 * 100 + n4 * 4 + n1 in
  if (n1 =? 4) || (n100 =? 4) then (year - 1, 12, 31)
  else
    let leapyear := (n1 =? 3) && (negb (n4 =? 24) || (n100 =? 3)) in
    let month := Z.shiftr (n + 50) 5 in
    let preceding :=
      nth (Z.to_nat month) table_days_before_month 0
      + b2z ((2 <? month) && leapyear) in
    if n <? preceding then
      let month := month - 1 in
      let preceding :=
        preceding - (nth (Z.to_nat month) table_days_in_month 0
                     + b2z ((month =? 2) && leapyear)) in
      (year, month, n - preceding + 1)
    else (year, month, n - preceding + 1).

Definition year (d : datetime) : Z := fst (fst (ord2ymd (toordinal d))).
Definition month (d : datetime) : Z := snd (fst (ord2ymd (toordinal d))).
Definition day (d : datetime) : Z := snd (ord2ymd (toordinal d)).

(** [date.weekday()]: Monday is 0, Sunday is 6. *)
Definition weekday (d : datetime) : Z := (toordinal d + 6) mod 7.

(** [d - timedelta(days=n)]. *)
Definition minus_days (d : datetime) (n : Z) : datetime :=
  mk_datetime (toordinal d - n) (second d).

(** [(a - b).days]: the difference in whole days, rounded down. *)
Definition days_between (a b : datetime) : Z :=
  ((toordinal a - toordinal b) * 86400 + (second a - second b)) / 86400.

Definition digit (n : Z) : ascii := ascii_of_N (Z.to_N (48 + n mod 10)).

(** [f"{n:02d}"] and [f"{n:04d}"], for the two- and four-digit range. *)
Definition pad2 (n : Z) : string :=
  String (digit (n / 10)) (String (digit n) EmptyString).

Definition pad4 (n : Z) : string :=
  String (digit (n / 1000)) (String (digit (n / 100)) (pad2 n)).

(** The prefix [f"{year:04d}-{month:02d}"]. *)
Definition year_month_prefix (y m : Z) : string :=
  (pad4 y ++ "-" ++ pad2 m)%string.

(** [d.strftime("%Y-%m-%d")]. *)
Definition strftime (d : datetime) : string :=
  (year_month_prefix (year d) (month d) ++ "-" ++ pad2 (day d))%string.

Definition code (c : ascii) : Z := Z.of_N (N_of_ascii c).

Definition in_range (lo hi : ascii) (c : ascii) : bool :=
  (code lo <=? code c) && (code c <=? code hi).

Definition is_digit (c : ascii) : bool := in_range "0" "9" c.

Definition digit_val (c : ascii) : Z := code c - 48.

(** The month field of the format, [1[0-2]|0[1-9]|[1-9]], followed by the
    dash; the rest of the text is returned. *)
Definition parse_month (s : list ascii) : option (Z * list ascii) :=
  match s with
  | a :: b :: "-"%char :: rest =>
      if (Ascii.eqb a "1" && in_range "0" "2" b)
         || (Ascii.eqb a "0" && in_range "1" "9" b)
      then Some (digit_val a * 10 + digit_val b, rest) else None
  | a :: "-"%char :: rest =>
      if in_range "1" "9" a then Some (digit_val a, rest) else None
  | _ => None
  end.

(** The day field, [3[0-1]|[1-2]\d|0[1-9]|[1-9]| [1-9]], which must reach
    the end of the text. *)
Definition parse_day (s : list ascii) : option Z :=
  match s with
  | [a; b] =>
      if (Ascii.eqb a "3" && in_range "0" "1" b)
         || (in_range "1" "2" a && is_digit b)
         || (Ascii.eqb a "0" && in_range "1" "9" b)
      then Some (digit_val a * 10 + digit_val b)
      else if Ascii.eqb a " " && in_range "1" "9" b then Some (digit_val b)
      else None
  | [a] => if in_range "1" "9" a then Some (digit_val a) else None
  | _ => None
  end.

(** [datetime.strptime(s, "%Y-%m-%d")]; [None] stands for its ValueError.
    The result is midnight of the day read. *)
Definition strptime (s : string) : option datetime :=
  match list_ascii_of_string s with
  | y1 :: y2 :: y3 :: y4 :: "-"%char :: rest =>
      if is_digit y1 && is_digit y2 && is_digit y3 && is_digit y4 then
        let y := digit_val y1 * 1000 + digit_val y2 * 100
                 + digit_val y3 * 10 + digit_val y4 in
        match parse_month rest with
        | Some (m, rest') =>
            match parse_day rest' with
            | Some d =>
                if (1 <=? y) && (d <=? days_in_month y m)
                then Some (mk_datetime (ymd2ord y m d) 0) else None
            | None => None
            end
        | None => None
        end
      else None
  | _ => None
  end.

End Calendar.

(** ** Numbers, texts and exceptions *)

Definition Qltb (a b : Q) : bool := negb (Qle_bool b a).

(** The builtin [round(q)] to an integer: nearest, ties to the even one. *)
Definition round_half_even (q : Q) : Z :=
  let f := Qfloor q in
  match (q - inject_Z f ?= 1 # 2)%Q with
  | Lt => f
  | Gt => f + 1
  | Eq => if Z.even f then f else f + 1
  end.

(** The builtin [round(q, ndigits)]. *)
Definition py_round (q : Q) (ndigits : nat) : Q :=
  let scale := inject_Z (10 ^ Z.of_nat ndigits) in
  (inject_Z (round_half_even (q * scale)) / scale)%Q.

Definition lower_char (c : ascii) : ascii :=
  if Calendar.in_range "A" "Z" c then ascii_of_N (N_of_ascii c + 32) else c.

(** [str.lower()], on ASCII text. *)
Fixpoint lower (s : string) : string :=
  match s with
  | EmptyString => EmptyString
  | String c s' => String (lower_char c) (lower s')
  end.

(** [max] of a non-empty sequence of texts, started from its first one. *)
Definition max_string (first : string) (others : list string) : string :=
  fold_left (fun m s => if String.ltb m s then s else m) others first.

(** [x or d] for an optional integer: [None] and [0] are falsy. *)
Definition or_default (x : option Z) (d : Z) : Z :=
  match x with
  | Some v => if v =? 0 then d else v
  | None => d
  end.

Inductive error : Set := ValueError | IndexError.

Inductive exn (A : Type) : Type :=
| Ok (a : A)
| Raise (e : error).
Arguments Ok {A} a.
Arguments Raise {A} e.

Definition bind {A B : Type} (c : exn A) (k : A -> exn B) : exn B :=
  match c with
  | Ok a => k a
  | Raise e => Raise e
  end.

Notation "x <- c ;; k" := (bind c (fun x => k))
  (at level 61, c at next level, right associativity).

(** [Series.apply] with a function that may raise: rows are visited in
    order and the first exception ends the pass. *)
Fixpoint apply {A B : Type} (f : A -> exn B) (l : list A) : exn (list B) :=
  match l with
  | [] => Ok []
  | a :: l' => b <- f a ;; bs <- apply f l' ;; Ok (b :: bs)
  end.

(** ** The data model *)

Module Restaurant.
(** A row of the restaurant table as [load_restaurants] types it. *)
Record t : Set := mk {
  name : string;
  area : string;
  specific_day : string;
  item : string;
  travel_time : Z;
  price : Z
}.
End Restaurant.

Module Visit.
Record t : Set := mk {
  date : string;
  restaurant : string;
  price : Q;
  item : string
}.
End Visit.

(** The history object; an absent ["visits"] key reads as the empty list. *)
Record History : Set := mk_history { visits : list Visit.t }.

Inductive Status : Set := green | yellow | red.

Record MonthlyStats : Set := mk_stats {
  days_visited : Z;
  total_spent : Q;
  current_average : Q;
  status : Status;
  target_daily : Q
}.

Module Scored.
(** A row of the frame [calculate_scores] returns: the restaurant's
    columns and the four computed ones. *)
Record t : Set := mk {
  row : Restaurant.t;
  days_since_visit : Z;
  recency_score : Q;
  budget_score : Q;
  final_score : Q
}.
End Scored.

Module Recommendation.
Record t : Set := mk {
  name : string;
  area : string;
  item : string;
  price : Z;
  travel_time : Z;
  days_since_visit : Z;
  recency_score : Q;
  budget_score : Q;
  final_score : Q
}.
End Recommendation.

Module Alternative.
(** An entry of the list [get_all_recommendations] returns. *)
Record t : Set := mk {
  name : string;
  area : string;
  item : string;
  price : Z;
  travel_time : Z;
  days_since_visit : Z;
  final_score : Q
}.
End Alternative.

(** [sort_values("final_score", ascending=False)]: some rearrangement of the
    rows with the scores in descending order.  Nothing more is fixed: the
    call leaves the sort kind at its default, which need not keep rows
    with equal scores in their order. *)
Class Sorter : Type := {
  sort_values : list Scored.t -> list Scored.t;
  sort_values_perm : forall l, Permutation (sort_values l) l;
  sort_values_desc : forall l,
    StronglySorted
      (fun a b => (Scored.final_score b <= Scored.final_score a)%Q)
      (sort_values l)
}.

(** ** recommender.py *)

Import Calendar.

(** Saudi work week: Sunday (6) to Thursday (3). *)
Definition WORK_DAYS : list (Z * string) :=
  [(6, "Sunday"); (0, "Monday"); (1, "Tuesday"); (2, "Wednesday");
   (3, "Thursday")]%string.

Definition THURSDAY : Z := 3.

Fixpoint dict_get (k : Z) (d : list (Z * string)) : option string :=
  match d with
  | [] => None
  | (k', v) :: d' => if k' =? k then Some v else dict_get k d'
  end.

Definition get_day_name (date : datetime) : string :=
  match dict_get (weekday date) WORK_DAYS with
  | Some s => s
  | None => ""
  end.

Definition is_work_day (date : datetime) : bool :=
  match dict_get (weekday date) WORK_DAYS with
  | Some _ => true
  | None => false
  end.

Definition is_thursday (date : datetime) : bool := weekday date =? THURSDAY.

Definition get_month_visits (now : datetime) (history : History)
    (year month : option Z) : list Visit.t :=
  let year := or_default year (Calendar.year now) in
  let month := or_default month (Calendar.month now) in
  filter (fun v => String.prefix (year_month_prefix year month) (Visit.date v))
    (visits history).

(** [sum(v["price"] for v in visits)]. *)
Definition sum_prices (vs : list Visit.t) : Q :=
  fold_left (fun acc v => (acc + Visit.price v)%Q) vs 0%Q.

Definition get_monthly_stats (now : datetime) (history : History)
    : MonthlyStats :=
  let visits := get_month_visits now history None None in
  match visits with
  | [] => mk_stats 0 0 0 green (45 # 2)
  | _ :: _ =>
      let days_visited := Z.of_nat (List.length visits) in
      let total_spent := sum_prices visits in
      let current_average :=
        if 0 <? days_visited then (total_spent / inject_Z days_visited)%Q
        else 0%Q in
      let status :=
        if Qltb current_average 20 then green
        else if Qle_bool current_average 25 then yellow
        else red in
      mk_stats days_visited total_spent (py_round current_average 1) status
        (45 # 2)
  end.

Definition get_recent_visits (now : datetime) (history : History) (days : Z)
    : list Visit.t :=
  let cutoff := strftime (minus_days now days) in
  filter (fun v => String.leb cutoff (Visit.date v)) (visits history).

(** The set of recent names, kept as the list of its elements; it is only
    asked for membership. *)
Definition get_recent_restaurant_names (now : datetime) (history : History)
    (days : Z) : list string :=
  map Visit.restaurant (get_recent_visits now history days).

Definition isin (names : list string) (n : string) : bool :=
  existsb (String.eqb n) names.

Definition get_available_restaurants (restaurants : list Restaurant.t)
    (date : datetime) : list Restaurant.t :=
  let day_name := get_day_name date in
  if String.eqb day_name "" then []
  else
    filter (fun r =>
              String.eqb (Restaurant.specific_day r) ""
              || String.eqb (lower (Restaurant.specific_day r))
                            (lower day_name))
      restaurants.

Definition get_days_since_visit (now : datetime) (restaurant_name : string)
    (history : History) : exn Z :=
  let restaurant_visits :=
    filter (fun v => String.eqb (Visit.restaurant v) restaurant_name)
      (visits history) in
  match restaurant_visits with
  | [] => Ok 999
  | v :: vs =>
      let last_visit := max_string (Visit.date v) (map Visit.date vs) in
      match strptime last_visit with
      | Some last_date => Ok (days_between now last_date)
      | None => Raise ValueError
      end
  end.

Definition recency_of_days (x : Z) : Q := (inject_Z (Z.min x 30) / 30)%Q.

(** The budget column, chosen once for the whole frame. *)
Definition budget_column (thursday : bool) (stats : MonthlyStats)
    : Restaurant.t -> Q :=
  if thursday then fun _ => (1 # 2)%Q
  else
    let current_avg := current_average stats in
    if Qltb 25 current_avg then
      fun r => (1 - inject_Z (Restaurant.price r) / 40)%Q
    else if Qltb current_avg 20 then
      fun r => (inject_Z (Restaurant.price r) / 40)%Q
    else fun _ => (1 # 2)%Q.

Definition final_column (thursday : bool) (recency budget : Q) : Q :=
  if thursday then recency
  else (recency * (1 # 2) + budget * (1 # 2))%Q.

Definition calculate_scores (now : datetime) (restaurants : list Restaurant.t)
    (history : History) (date : datetime) : exn (list Scored.t) :=
  let stats := get_monthly_stats now history in
  let thursday := is_thursday date in
  apply (fun r =>
           days <- get_days_since_visit now (Restaurant.name r) history ;;
           let recency := recency_of_days days in
           let budget := budget_column thursday stats r in
           Ok (Scored.mk r days recency budget
                 (final_column thursday recency budget)))
    restaurants.

Definition to_recommendation (top : Scored.t) : Recommendation.t :=
  let r := Scored.row top in
  Recommendation.mk (Restaurant.name r) (Restaurant.area r)
    (Restaurant.item r) (Restaurant.price r) (Restaurant.travel_time r)
    (Scored.days_since_visit top)
    (py_round (Scored.recency_score top) 2)
    (py_round (Scored.budget_score top) 2)
    (py_round (Scored.final_score top) 2).

(** [date or datetime.now()]: a datetime is never falsy. *)
Definition date_or_now (date : option datetime) (now : datetime) : datetime :=
  match date with
  | Some d => d
  | None => now
  end.

(** [available[~available["name"].isin(recent_restaurants)]]. *)
Definition exclude_recent (recent_restaurants : list string)
    (available : list Restaurant.t) : list Restaurant.t :=
  filter (fun r => negb (isin recent_restaurants (Restaurant.name r)))
    available.

Definition get_recommendation `{Sorter} (now : datetime)
    (restaurants : list Restaurant.t) (history : History)
    (date : option datetime) : exn (option Recommendation.t) :=
  let date := date_or_now date now in
  if negb (is_work_day date) then Ok None
  else
    let available := get_available_restaurants restaurants date in
    match available with
    | [] => Ok None
    | _ :: _ =>
        let recent_restaurants := get_recent_restaurant_names now history 7 in
        let available := exclude_recent recent_restaurants available in
        let available :=
          match available with
          | [] => get_available_restaurants restaurants date
          | _ :: _ => available
          end in
        scored <- calculate_scores now available history date ;;
        match sort_values scored with
        | top :: _ => Ok (Some (to_recommendation top))
        | [] => Raise IndexError
        end
    end.

Definition to_alternative (s : Scored.t) : Alternative.t :=
  let r := Scored.row s in
  Alternative.mk (Restaurant.name r) (Restaurant.area r) (Restaurant.item r)
    (Restaurant.price r) (Restaurant.travel_time r)
    (Scored.days_since_visit s) (py_round (Scored.final_score s) 2).

Definition get_all_recommendations `{Sorter} (now : datetime)
    (restaurants : list Restaurant.t) (history : History)
    (date : option datetime) (limit : nat) : exn (list Alternative.t) :=
  let date := date_or_now date now in
  if negb (is_work_day date) then Ok []
  else
    let available := get_available_restaurants restaurants date in
    match available with
    | [] => Ok []
    | _ :: _ =>
        let recent_restaurants := get_recent_restaurant_names now history 7 in
        let filtered := exclude_recent recent_restaurants available in
        let filtered :=
          match filtered with
          | [] => available
          | _ :: _ => filtered
          end in
        scored <- calculate_scores now filtered history date ;;
        Ok (map to_alternative (firstn limit (sort_values scored)))
    end.

(** The sentences of an explanation, before the numbers are printed into
    their templates. *)
Inductive Clause : Set :=
| never_been_here
| days_since_last_visit (days : Z)
| last_visited_ago (days : Z)
| brings_average_down (price : Z) (avg : Q)
| treat_yourself (avg : Q)
| on_track (avg : Q)
| thursday_no_limit.

(** The list [parts] that [explain_recommendation] joins. *)
Definition explain_parts (now : datetime) (recommendation : Recommendation.t)
    (history : History) (date : option datetime) : list Clause :=
  let date := date_or_now date now in
  let stats := get_monthly_stats now history in
  let thursday := is_thursday date in
  let days := Recommendation.days_since_visit recommendation in
  let parts :=
    if 999 <=? days then [never_been_here]
    else if 14 <? days then [days_since_last_visit days]
    else if 7 <? days then [last_visited_ago days]
    else [] in
  if negb thursday then
    let price := Recommendation.price recommendation in
    let avg := current_average stats in
    if Qltb 25 avg then parts ++ [brings_average_down price avg]
    else if Qltb avg 20 && (25 <? price) then parts ++ [treat_yourself avg]
    else if Qle_bool 20 avg && Qle_bool avg 25 then parts ++ [on_track avg]
    else parts
  else parts ++ [thursday_no_limit].

Section Rendering.

(** How an f-string prints an integer and a float. *)
Variable str_int : Z -> string.
Variable str_float : Q -> string.

Definition render (c : Clause) : string :=
  match c with
  | never_been_here => "You've never been here before!"
  | days_since_last_visit days =>
      "It's been " ++ str_int days ++ " days since your last visit."
  | last_visited_ago days => "Last visited " ++ str_int days ++ " days ago."
  | brings_average_down price avg =>
      "At " ++ str_int price
      ++ " SAR, this helps bring your monthly average down from "
      ++ str_float avg ++ " SAR."
  | treat_yourself avg =>
      "Your average is low (" ++ str_float avg
      ++ " SAR), so you can treat yourself today!"
  | on_track avg =>
      "Your monthly average (" ++ str_float avg ++ " SAR) is on track."
  | thursday_no_limit =>
      "It's Thursday! Treat yourself - no budget restrictions today."
  end%string.

Definition explain_recommendation (now : datetime)
    (recommendation : Recommendation.t) (history : History)
    (date : option datetime) : string :=
  String.concat " " (map render (explain_parts now recommendation history date)).

End Rendering.

(** ** database.py: the visit operations *)

(** The stored history file; [None] when no file exists yet.  Reads and
    writes go to this one place (no remote copy is configured). *)
Definition Store : Set := option History.

Definition load_history (s : Store) : History :=
  match s with
  | Some h => h
  | None => mk_history []
  end.

Definition save_history (history : History) : Store * bool :=
  (Some history, true).

(** [date or datetime.now().strftime("%Y-%m-%d")]: no date and the empty
    text are falsy. *)
Definition date_or_today (date : option string) (now : datetime) : string :=
  match date with
  | Some d => if String.eqb d "" then strftime now else d
  | None => strftime now
  end.

Definition add_visit (now : datetime) (restaurant : string) (price : Q)
    (item : string) (date : option string) (s : Store) : Store * bool :=
  let history := load_history s in
  let visit := Visit.mk (date_or_today date now) restaurant price item in
  save_history (mk_history (visits history ++ [visit])).

Definition delete_visit (date restaurant : string) (s : Store)
    : Store * bool :=
  let history := load_history s in
  save_history
    (mk_history
       (filter (fun v => negb (String.eqb (Visit.date v) date
                               && String.eqb (Visit.restaurant v) restaurant))
          (visits history))).

(** ** Notions the statements use *)

(** Every visit carries a date [strptime] reads: the ISO dates of the data
    model. *)
Definition dates_valid (history : History) : bool :=
  forallb (fun v => match strptime (Visit.date v) with
                    | Some _ => true
                    | None => false
                    end) (visits history).

(** What [calculate_scores] writes into the row of restaurant [r]. *)
Definition scored_as (now : datetime) (history : History) (date : datetime)
    (r : Restaurant.t) (s : Scored.t) : Prop :=
  Scored.row s = r
  /\ get_days_since_visit now (Restaurant.name r) history
     = Ok (Scored.days_since_visit s)
  /\ Scored.recency_score s = recency_of_days (Scored.days_since_visit s)
  /\ Scored.budget_score s
     = budget_column (is_thursday date) (get_monthly_stats now history) r
  /\ Scored.final_score s
     = final_column (is_thursday date) (Scored.recency_score s)
         (Scored.budget_score s).

(** The frame [get_recommendation] scores: the available rows without the
    recently visited names, or all of them when none is left. *)
Definition scored_pool (now : datetime) (restaurants : list Restaurant.t)
    (history : History) (date : datetime) : list Restaurant.t :=
  let available := get_available_restaurants restaurants date in
  match exclude_recent (get_recent_restaurant_names now history 7) available
  with
  | [] => available
  | r :: rs => r :: rs
  end.

(** [a] scores at least as high as [b]. *)
Definition score_ge (a b : Scored.t) : Prop :=
  (Scored.final_score b <= Scored.final_score a)%Q.

(** The sum of a list of prices, written by recursion on the list. *)
Fixpoint total_of (vs : list Visit.t) : Q :=
  match vs with
  | [] => 0
  | v :: vs' => Visit.price v + total_of vs'
  end.

(** The key [delete_visit] matches on. *)
Definition same_key (date restaurant : string) (v : Visit.t) : bool :=
  String.eqb (Visit.date v) date && String.eqb (Visit.restaurant v) restaurant.

(** The clauses that speak about the budget on a day other than Thursday. *)
Definition is_budget_clause (c : Clause) : bool :=
  match c with
  | brings_average_down _ _ | treat_yourself _ | on_track _ => true
  | _ => false
  end.

(** The clauses that speak about the last visit. *)
Definition is_recency_clause (c : Clause) : bool :=
  match c with
  | never_been_here | days_since_last_visit _ | last_visited_ago _ => true
  | _ => false
  end.

(** ** Notions of the calendar the statements use *)

(** The month and the day of the [n]-th day of a year, counted from 0: the
    last step of [ord2ymd]. *)
Definition month_day (leapyear : bool) (n : Z) : Z * Z :=
  let month := Z.shiftr (n + 50) 5 in
  let preceding :=
    nth (Z.to_nat month) table_days_before_month 0
    + b2z ((2 <? month) && leapyear) in
  if n <? preceding then
    let month := month - 1 in
    let preceding :=
      preceding - (nth (Z.to_nat month) table_days_in_month 0
                   + b2z ((month =? 2) && leapyear)) in
    (month, n - preceding + 1)
  else (month, n - preceding + 1).

(** [month_day] lands on a day of a month, the right number of days into the
    year. *)
Definition month_day_ok (leapyear : bool) (n : Z) : bool :=
  let '(m, d) := month_day leapyear n in
  (1 <=? m) && (m <=? 12) && (1 <=? d)
  && (d <=? nth (Z.to_nat m) table_days_in_month 0
             + b2z ((m =? 2) && leapyear))
  && (nth (Z.to_nat m) table_days_before_month 0
      + b2z ((2 <? m) && leapyear) + d =? n + 1).

(** A date of the calendar, years 1 to 9999. *)
Definition valid_date (y m d : Z) : Prop :=
  1 <= y <= 9999 /\ 1 <= m <= 12 /\ 1 <= d <= days_in_month y m.

(** The text of a date, as [strftime] lays it out. *)
Definition format_date (y m d : Z) : string :=
  (year_month_prefix y m ++ "-" ++ pad2 d)%string.

(** Year, month and day as one number, ordered as the dates are. *)
Definition date_key (y m d : Z) : Z := y * 10000 + m * 100 + d.

(** A day of the years 1000 to 9999 (1000-01-01 is day 364878), where
    [strftime] writes the year on four digits. *)
Definition valid_day (d : datetime) : Prop :=
  364878 <= toordinal d <= 3652059.

(** A clock reading: a valid day and a second of that day. *)
Definition valid_clock (d : datetime) : Prop :=
  valid_day d /\ 0 <= second d < 86400.

(** ** Sorters: insertion from the right *)

(** [insert_desc passes x l] puts [x] into the descending list [l], after
    the rows it [passes]. *)
Fixpoint insert_desc (passes : Q -> Q -> bool) (x : Scored.t)
    (l : list Scored.t) : list Scored.t :=
  match l with
  | [] => [x]
  | y :: l' =>
      if passes (Scored.final_score x) (Scored.final_score y)
      then y :: insert_desc passes x l'
      else x :: y :: l'
  end.

Definition insertion_sort_desc (passes : Q -> Q -> bool)
    (l : list Scored.t) : list Scored.t :=
  fold_right (insert_desc passes) [] l.

(** ** Sample data *)

Module Sample.
Open Scope string_scope.

(** Sunday 2024-03-10, noon; the Monday and the Thursday after it; the
    Friday of that week. *)
Definition sunday : datetime := mk_datetime 738955 43200.
Definition monday : datetime := mk_datetime 738956 43200.
Definition thursday : datetime := mk_datetime 738959 43200.

Definition A : Restaurant.t := Restaurant.mk "A" "North" "" "Kabsa" 10 15.
Definition B : Restaurant.t := Restaurant.mk "B" "South" "" "Mandi" 15 35.
Definition C : Restaurant.t :=
  Restaurant.mk "C" "East" "Monday" "Shawarma" 5 50.

Definition no_visits : History := mk_history [].

(** Two visits this month, 30 on average: over budget. *)
Definition over_budget : History :=
  mk_history [Visit.mk "2024-03-01" "C" 25 "Shawarma";
              Visit.mk "2024-03-02" "C" 35 "Shawarma"].

(** 22 on average: on track. *)
Definition on_target : History :=
  mk_history [Visit.mk "2024-03-01" "C" 20 "Shawarma";
              Visit.mk "2024-03-02" "C" 24 "Shawarma"].


(** Both restaurants visited within the last week. *)
Definition all_recent : History :=
  mk_history [Visit.mk "2024-03-07" "A" 15 "Kabsa";
              Visit.mk "2024-03-09" "B" 35 "Mandi"].

(** A visit logged ahead of time, two days after [sunday]. *)
Definition booked_ahead : History :=
  mk_history [Visit.mk "2024-03-12" "A" 15 "Kabsa"].
End Sample.

(** * Properties *)

(** ** The calendar on sample dates *)

Example ord_2024_03_10 : Calendar.ymd2ord 2024 3 10 = 738955.
Proof. reflexivity. Qed.

Example ymd_738955 : Calendar.ord2ymd 738955 = (2024, 3, 10).
Proof. reflexivity. Qed.

Example strftime_738955 :
  Calendar.strftime (Calendar.mk_datetime 738955 43200) = "2024-03-10"%string.
Proof. reflexivity. Qed.

Example strptime_2024_03_10 :
  Calendar.strptime "2024-03-10" = Some (Calendar.mk_datetime 738955 0).
Proof. reflexivity. Qed.

Example strptime_bad_day : Calendar.strptime "2023-02-29" = None.
Proof. reflexivity. Qed.


(** ** Comparisons and rounding *)

Lemma Qltb_true (a b : Q) : Qltb a b = true <-> (a < b)%Q.
Proof.
  unfold Qltb. rewrite negb_true_iff, <- not_true_iff_false, Qle_bool_iff.
  split; [apply Qnot_le_lt | apply Qlt_not_le].
Qed.

Lemma Qltb_false (a b : Q) : Qltb a b = false <-> (b <= a)%Q.
Proof.
  unfold Qltb. rewrite negb_false_iff. apply Qle_bool_iff.
Qed.

Lemma Qle_bool_false (a b : Q) : Qle_bool a b = false <-> (b < a)%Q.
Proof.
  rewrite <- not_true_iff_false, Qle_bool_iff.
  split; [apply Qnot_le_lt | apply Qlt_not_le].
Qed.

Lemma round_half_even_near (q : Q) :
  (Qabs (q - inject_Z (round_half_even q)) <= 1 # 2)%Q.
Proof.
  unfold round_half_even.
  pose proof (Qfloor_le q) as Hlo. pose proof (Qlt_floor q) as Hhi.
  set (f := Qfloor q) in *.
  assert (Hf1 : (inject_Z (f + 1) == inject_Z f + 1)%Q)
    by (rewrite inject_Z_plus; reflexivity).
  rewrite Hf1 in Hhi.
  apply Qabs_Qle_condition.
  destruct (q - inject_Z f ?= 1 # 2)%Q eqn:E.
  - apply Qeq_alt in E. destruct (Z.even f); [|rewrite Hf1]; split; lra.
  - apply Qlt_alt in E. split; lra.
  - apply Qgt_alt in E. rewrite Hf1. split; lra.
Qed.

(** [round(q, 1)] is a whole number of tenths, at most half a tenth away
    from [q]. *)
Lemma py_round_1_tenths (q : Q) :
  (py_round q 1 == round_half_even (q * 10) # 10)%Q.
Proof.
  unfold py_round. change (inject_Z (10 ^ Z.of_nat 1)) with (10 # 1)%Q.
  set (r := round_half_even (q * (10 # 1))).
  unfold Qdiv, Qmult, Qinv, Qeq, inject_Z; simpl. lia.
Qed.

Lemma py_round_1_near (q : Q) : (Qabs (py_round q 1 - q) <= 1 # 20)%Q.
Proof.
  pose proof (round_half_even_near (q * 10)) as H.
  apply Qabs_Qle_condition in H. apply Qabs_Qle_condition.
  assert (E : (py_round q 1 == inject_Z (round_half_even (q * 10)) / 10)%Q)
    by reflexivity.
  rewrite E. set (r := inject_Z (round_half_even (q * 10))) in *.
  unfold Qdiv. change (/ 10)%Q with (1 # 10)%Q.
  split; lra.
Qed.

(** ** The exception monad *)

Lemma apply_Forall2 {A B : Type} (f : A -> exn B) (l : list A) (bs : list B) :
  apply f l = Ok bs -> Forall2 (fun a b => f a = Ok b) l bs.
Proof.
  revert bs. induction l as [|a l IH]; simpl; intros bs E.
  - injection E as <-. constructor.
  - destruct (f a) as [b|e] eqn:Ea; simpl in E; [|discriminate].
    destruct (apply f l) as [bs'|e] eqn:El; simpl in E; [|discriminate].
    injection E as <-. constructor; auto.
Qed.

Lemma apply_total {A B : Type} (f : A -> exn B) (l : list A) :
  (forall a, In a l -> exists b, f a = Ok b) ->
  exists bs, apply f l = Ok bs.
Proof.
  induction l as [|a l IH]; simpl; intros Hf.
  - eexists; reflexivity.
  - destruct (Hf a (or_introl eq_refl)) as [b ->].
    destruct IH as [bs ->]; [intros; apply Hf; auto|].
    simpl. eexists; reflexivity.
Qed.

(** ** Days since the last visit *)

Lemma max_string_In (first : string) (others : list string) :
  In (max_string first others) (first :: others).
Proof.
  unfold max_string. revert first.
  induction others as [|s l IH]; simpl; intros first; [auto|].
  destruct (String.ltb first s).
  - destruct (IH s) as [E|HI]; [rewrite <- E|]; auto.
  - destruct (IH first) as [E|HI]; [rewrite <- E|]; auto.
Qed.

Lemma get_days_since_visit_total (now : datetime) (name : string)
    (history : History) :
  dates_valid history = true ->
  exists days, get_days_since_visit now name history = Ok days.
Proof.
  unfold dates_valid, get_days_since_visit. intros Hv.
  rewrite forallb_forall in Hv.
  destruct (filter _ (visits history)) as [|v vs] eqn:Ef; [eauto|].
  assert (Hin : exists w, In w (visits history)
                          /\ max_string (Visit.date v) (map Visit.date vs)
                             = Visit.date w).
  { assert (Hsub : forall w, In w (v :: vs) -> In w (visits history)).
    { intros w Hw. rewrite <- Ef in Hw. apply filter_In in Hw. tauto. }
    destruct (max_string_In (Visit.date v) (map Visit.date vs)) as [E|HI].
    - exists v. split; [apply Hsub; left; reflexivity | auto].
    - apply in_map_iff in HI. destruct HI as [w [E Hw]].
      exists w. split; [apply Hsub; right; exact Hw | auto]. }
  destruct Hin as [w [Hw ->]]. specialize (Hv w Hw).
  destruct (strptime (Visit.date w)); [eauto | discriminate].
Qed.

(** ** The scored frame *)

Lemma calculate_scores_rows (now : datetime) (restaurants : list Restaurant.t)
    (history : History) (date : datetime) (scored : list Scored.t) :
  calculate_scores now restaurants history date = Ok scored ->
  Forall2 (scored_as now history date) restaurants scored.
Proof.
  unfold calculate_scores. intros E. apply apply_Forall2 in E.
  induction E as [|r s rs ss Hrs _ IH]; constructor; auto.
  destruct (get_days_since_visit now (Restaurant.name r) history) as [d|e]
    eqn:Ed; simpl in Hrs; [|discriminate].
  injection Hrs as <-. unfold scored_as; simpl. auto.
Qed.

Lemma calculate_scores_total (now : datetime)
    (restaurants : list Restaurant.t) (history : History) (date : datetime) :
  dates_valid history = true ->
  exists scored,
    calculate_scores now restaurants history date = Ok scored
    /\ Forall2 (scored_as now history date) restaurants scored.
Proof.
  intros Hv.
  destruct (apply_total
              (fun r =>
                 days <- get_days_since_visit now (Restaurant.name r) history ;;
                 Ok (Scored.mk r days (recency_of_days days)
                       (budget_column (is_thursday date)
                          (get_monthly_stats now history) r)
                       (final_column (is_thursday date) (recency_of_days days)
                          (budget_column (is_thursday date)
                             (get_monthly_stats now history) r))))
              restaurants) as [scored E].
  - intros r _.
    destruct (get_days_since_visit_total now (Restaurant.name r) history Hv)
      as [d ->].
    simpl. eauto.
  - exists scored. split; [exact E|]. apply calculate_scores_rows. exact E.
Qed.

Lemma Forall2_rows (now : datetime) (history : History) (date : datetime)
    (rs : list Restaurant.t) (ss : list Scored.t) :
  Forall2 (scored_as now history date) rs ss -> map Scored.row ss = rs.
Proof.
  induction 1 as [|r s rs ss [Hr _] _ IH]; simpl; congruence.
Qed.

Lemma Forall2_Forall_r {A B : Type} (R : A -> B -> Prop) (P : B -> Prop)
    (l : list A) (l' : list B) :
  Forall2 R l l' -> (forall a b, R a b -> P b) -> Forall P l'.
Proof.
  induction 1; intros HP; constructor; eauto.
Qed.

(** ** The budget score *)

(** C1.  On a day other than Thursday the budget score of every row follows
    the current average of the monthly statistics: above 25 it is
    [1 - price/40] (with no clamp), below 20 it is [price/40], and from 20
    to 25 it is one half whatever the price.  The frame has one row per
    restaurant, in order, and it is produced whenever the dates of the
    history read. *)
Theorem budget_score_by_average :
  forall (now : datetime) (restaurants : list Restaurant.t)
         (history : History) (date : datetime),
    is_thursday date = false ->
    (forall scored,
        calculate_scores now restaurants history date = Ok scored ->
        map Scored.row scored = restaurants
        /\ Forall
             (fun s =>
                let avg := current_average (get_monthly_stats now history) in
                let price := inject_Z (Restaurant.price (Scored.row s)) in
                (25 < avg -> Scored.budget_score s == 1 - price / 40)
                /\ (avg < 20 -> Scored.budget_score s == price / 40)
                /\ (20 <= avg <= 25 -> Scored.budget_score s == 1 # 2))%Q
             scored)
    /\ (dates_valid history = true ->
        exists scored,
          calculate_scores now restaurants history date = Ok scored).
Proof.
  intros now restaurants history date Hthu. split.
  - intros scored E. apply calculate_scores_rows in E.
    split; [eapply Forall2_rows; eauto|].
    eapply Forall2_Forall_r; [exact E|].
    intros r s (Hr & _ & _ & Hb & _). cbv zeta. rewrite Hb, Hr, Hthu.
    unfold budget_column.
    destruct (Qltb 25 _) eqn:E25.
    + apply Qltb_true in E25. repeat split; intros; try reflexivity; lra.
    + apply Qltb_false in E25.
      destruct (Qltb _ 20) eqn:E20.
      * apply Qltb_true in E20. repeat split; intros; try reflexivity; lra.
      * apply Qltb_false in E20. repeat split; intros; try reflexivity; lra.
  - intros Hv.
    destruct (calculate_scores_total now restaurants history date Hv)
      as [scored [E _]].
    eauto.
Qed.

Lemma budget_score_by_average_witness :
  exists a b,
    calculate_scores Sample.sunday [Sample.A; Sample.B] Sample.over_budget
      Sample.sunday = Ok [a; b]
    /\ (Scored.budget_score a == 1 - 15 / 40)%Q
    /\ (Scored.budget_score b == 1 - 35 / 40)%Q.
Proof.
  destruct (budget_score_by_average Sample.sunday [Sample.A; Sample.B]
              Sample.over_budget Sample.sunday eq_refl) as [Hrows Hok].
  destruct (Hok eq_refl) as [scored E].
  destruct (Hrows scored E) as [Hmap Hall].
  destruct scored as [|a [|b [|c scored]]]; try discriminate.
  injection Hmap as Ha Hb.
  exists a, b. split; [exact E|].
  apply Forall_cons_iff in Hall. destruct Hall as [[Hover _] Hall].
  apply Forall_cons_iff in Hall. destruct Hall as [[Hover' _] _].
  rewrite Ha in Hover. rewrite Hb in Hover'.
  split; [apply Hover | apply Hover']; reflexivity.
Defined.

(** The scenario of the specification: 30 on average, prices 15 and 35. *)
Example budget_scores_over_budget :
  exists a b,
    calculate_scores Sample.sunday [Sample.A; Sample.B] Sample.over_budget
      Sample.sunday = Ok [a; b]
    /\ (Scored.budget_score a == 5 # 8)%Q
    /\ (Scored.budget_score b == 1 # 8)%Q
    /\ (current_average (get_monthly_stats Sample.sunday Sample.over_budget)
        == 30)%Q.
Proof.
  do 2 eexists. split; [vm_compute; reflexivity|]. repeat split.
Qed.

(** ** The recency score *)

Lemma recency_of_days_monotone (x y : Z) :
  x <= y -> (recency_of_days x <= recency_of_days y)%Q.
Proof.
  intros Hxy. unfold recency_of_days, Qdiv.
  apply Qmult_le_compat_r; [|discriminate].
  rewrite <- Zle_Qle. lia.
Qed.

Lemma recency_of_days_upper (x : Z) : (recency_of_days x <= 1)%Q.
Proof.
  unfold recency_of_days.
  assert (H : (inject_Z (Z.min x 30) <= 30)%Q)
    by (change 30%Q with (inject_Z 30); rewrite <- Zle_Qle; lia).
  unfold Qdiv. change (/ 30)%Q with (1 # 30)%Q. lra.
Qed.

Lemma recency_of_days_saturates (x : Z) :
  30 <= x -> (recency_of_days x == 1)%Q.
Proof.
  intros Hx. unfold recency_of_days. rewrite Z.min_r by exact Hx. reflexivity.
Qed.

Lemma recency_of_days_lower (x : Z) :
  0 <= x -> (0 <= recency_of_days x)%Q.
Proof.
  intros Hx. unfold recency_of_days.
  assert (H : (0 <= inject_Z (Z.min x 30))%Q)
    by (change 0%Q with (inject_Z 0); rewrite <- Zle_Qle; lia).
  unfold Qdiv. change (/ 30)%Q with (1 # 30)%Q. lra.
Qed.

(** A day count below zero gives a recency score below zero. *)
Lemma recency_of_days_negative (x : Z) :
  x < 0 -> (recency_of_days x < 0)%Q.
Proof.
  intros Hx. unfold recency_of_days.
  assert (H : (inject_Z (Z.min x 30) < 0)%Q)
    by (change 0%Q with (inject_Z 0); rewrite <- Zlt_Qlt; lia).
  unfold Qdiv. change (/ 30)%Q with (1 # 30)%Q. lra.
Qed.

(** Every row's recency score is [min(days, 30) / 30] of its day count. *)
Lemma recency_score_formula (now : datetime) (restaurants : list Restaurant.t)
    (history : History) (date : datetime) (scored : list Scored.t) :
  calculate_scores now restaurants history date = Ok scored ->
  Forall (fun s => Scored.recency_score s
                   = (inject_Z (Z.min (Scored.days_since_visit s) 30) / 30)%Q)
    scored.
Proof.
  intros E. apply calculate_scores_rows in E.
  eapply Forall2_Forall_r; [exact E|].
  intros r s (_ & _ & Hrec & _). exact Hrec.
Qed.

(** C2.  The recency score leaves the interval from 0 to 1 when the last
    visit is dated after the current day: with a visit to A booked for
    2024-03-12 and the clock at 2024-03-10, A has [-2] days since its visit
    and the recency score [-1/15]. *)
Theorem recency_score_below_zero :
  exists s,
    calculate_scores Sample.sunday [Sample.A] Sample.booked_ahead
      Sample.sunday = Ok [s]
    /\ Scored.days_since_visit s = -2
    /\ (Scored.recency_score s == - (1 # 15))%Q
    /\ ~ (0 <= Scored.recency_score s)%Q.
Proof.
  eexists. split; [vm_compute; reflexivity|]. simpl.
  repeat split. intros H. vm_compute in H. apply H. reflexivity.
Qed.

(** ** The final score *)

(** C3.  On Thursday the final score of every row is its recency score, which
    is [min(days, 30) / 30] of the days since the last visit to the row's
    name and so involves neither the price nor the monthly average; on all
    other days it is half the recency score plus half the budget score.  The
    frame is produced whenever the dates of the history read. *)
Theorem final_score_by_day :
  forall (now : datetime) (restaurants : list Restaurant.t)
         (history : History) (date : datetime),
    (forall scored,
        calculate_scores now restaurants history date = Ok scored ->
        map Scored.row scored = restaurants
        /\ Forall
             (fun s =>
                get_days_since_visit now (Restaurant.name (Scored.row s))
                  history = Ok (Scored.days_since_visit s)
                /\ if is_thursday date
                   then Scored.final_score s = Scored.recency_score s
                        /\ Scored.final_score s
                           = recency_of_days (Scored.days_since_visit s)
                   else (Scored.final_score s
                         == (1 # 2) * Scored.recency_score s
                            + (1 # 2) * Scored.budget_score s)%Q)
             scored)
    /\ (dates_valid history = true ->
        exists scored,
          calculate_scores now restaurants history date = Ok scored).
Proof.
  intros now restaurants history date. split.
  - intros scored E. apply calculate_scores_rows in E.
    split; [eapply Forall2_rows; eauto|].
    eapply Forall2_Forall_r; [exact E|].
    intros r s (Hr & Hd & Hrec & _ & Hfin). rewrite Hr. split; [exact Hd|].
    rewrite Hfin. unfold final_column.
    destruct (is_thursday date); [split; [reflexivity | exact Hrec] | ring].
  - intros Hv.
    destruct (calculate_scores_total now restaurants history date Hv)
      as [scored [E _]].
    eauto.
Qed.

Lemma final_score_by_day_witness :
  exists a b,
    calculate_scores Sample.sunday [Sample.A; Sample.B] Sample.all_recent
      Sample.thursday = Ok [a; b]
    /\ Scored.final_score a = Scored.recency_score a
    /\ Scored.final_score b = Scored.recency_score b.
Proof.
  destruct (final_score_by_day Sample.sunday [Sample.A; Sample.B]
              Sample.all_recent Sample.thursday) as [Hrows Hok].
  destruct (Hok eq_refl) as [scored E].
  destruct (Hrows scored E) as [Hmap Hall].
  destruct scored as [|a [|b [|c scored]]]; try discriminate.
  exists a, b. split; [exact E|].
  apply Forall_cons_iff in Hall. destruct Hall as [[_ Ha] Hall].
  apply Forall_cons_iff in Hall. destruct Hall as [[_ Hb] _].
  change (is_thursday Sample.thursday) with true in Ha, Hb.
  split; [apply Ha | apply Hb].
Defined.

(** On Thursday two restaurants that differ only in price score the same,
    under any two monthly statistics. *)
Lemma final_column_thursday (recency budget budget' : Q) :
  final_column true recency budget = final_column true recency budget'.
Proof. reflexivity. Qed.

(** ** The monthly statistics *)

Lemma fold_prices (vs : list Visit.t) (acc : Q) :
  (fold_left (fun a v => a + Visit.price v) vs acc == acc + total_of vs)%Q.
Proof.
  revert acc. induction vs as [|v vs IH]; intros acc; simpl.
  - ring.
  - rewrite IH. ring.
Qed.

Lemma sum_prices_total (vs : list Visit.t) : (sum_prices vs == total_of vs)%Q.
Proof. unfold sum_prices. rewrite fold_prices. ring. Qed.



(** The status looks at the average before it is rounded, the scoring at the
    rounded one: at 25.04 the status is red while the current average reads
    25.0, which is on track for the budget score. *)
Example status_and_rounded_average :
  let history :=
    mk_history [Visit.mk "2024-03-01" "C" (2504 # 100) "Shawarma"] in
  status (get_monthly_stats Sample.sunday history) = red
  /\ (current_average (get_monthly_stats Sample.sunday history) == 25)%Q.
Proof. split; reflexivity. Qed.

(** ** Sorting by final score *)

Section Insertion.

Variable passes : Q -> Q -> bool.
Hypothesis passes_true : forall x y, passes x y = true -> (x <= y)%Q.
Hypothesis passes_false : forall x y, passes x y = false -> (y <= x)%Q.

Lemma insert_desc_perm (x : Scored.t) (l : list Scored.t) :
  Permutation (insert_desc passes x l) (x :: l).
Proof.
  induction l as [|y l IH]; simpl; [reflexivity|].
  destruct (passes _ _); [|reflexivity].
  rewrite IH. apply perm_swap.
Qed.

Lemma insertion_sort_desc_perm (l : list Scored.t) :
  Permutation (insertion_sort_desc passes l) l.
Proof.
  induction l as [|x l IH]; simpl; [reflexivity|].
  rewrite insert_desc_perm. constructor. exact IH.
Qed.

Lemma insert_desc_sorted (x : Scored.t) (l : list Scored.t) :
  StronglySorted score_ge l ->
  StronglySorted score_ge (insert_desc passes x l).
Proof.
  induction 1 as [|y l Hs IH Hall]; simpl.
  - repeat constructor.
  - destruct (passes _ _) eqn:E.
    + apply passes_true in E. constructor; [exact IH|].
      apply (Permutation_Forall (Permutation_sym (insert_desc_perm x l))).
      constructor; [exact E | exact Hall].
    + apply passes_false in E. constructor; [constructor; assumption|].
      constructor; [exact E|].
      eapply Forall_impl; [|exact Hall].
      intros z Hz. unfold score_ge in *. eapply Qle_trans; eassumption.
Qed.

Lemma insertion_sort_desc_sorted (l : list Scored.t) :
  StronglySorted score_ge (insertion_sort_desc passes l).
Proof.
  induction l as [|x l IH]; simpl; [constructor|].
  apply insert_desc_sorted. exact IH.
Qed.

End Insertion.

Lemma Qltb_le (x y : Q) : Qltb x y = true -> (x <= y)%Q.
Proof. intros E. apply Qlt_le_weak, Qltb_true, E. Qed.

Lemma Qltb_ge (x y : Q) : Qltb x y = false -> (y <= x)%Q.
Proof. apply Qltb_false. Qed.

Lemma Qle_bool_le (x y : Q) : Qle_bool x y = true -> (x <= y)%Q.
Proof. apply Qle_bool_iff. Qed.

Lemma Qle_bool_ge (x y : Q) : Qle_bool x y = false -> (y <= x)%Q.
Proof. intros E. apply Qlt_le_weak, Qle_bool_false, E. Qed.

(** A row passes only the rows that score strictly higher: rows of equal
    score stay in their input order. *)
#[export] Instance insertion_sorter : Sorter := {
  sort_values := insertion_sort_desc Qltb;
  sort_values_perm := insertion_sort_desc_perm Qltb;
  sort_values_desc := insertion_sort_desc_sorted Qltb Qltb_le Qltb_ge
}.

(** A row also passes the rows of equal score: they come out in reverse
    input order. *)
Definition reversing_sorter : Sorter := {|
  sort_values := insertion_sort_desc Qle_bool;
  sort_values_perm := insertion_sort_desc_perm Qle_bool;
  sort_values_desc :=
    insertion_sort_desc_sorted Qle_bool Qle_bool_le Qle_bool_ge
|}.

(** The first row of the sorted frame is a row of the frame no other row
    outscores. *)
Lemma sort_values_top `{Sorter} (scored : list Scored.t) :
  scored <> [] ->
  exists top rest,
    sort_values scored = top :: rest
    /\ In top scored
    /\ forall s, In s scored -> score_ge top s.
Proof.
  intros Hne.
  pose proof (sort_values_perm scored) as Hp.
  pose proof (sort_values_desc scored) as Hs.
  destruct (sort_values scored) as [|top rest].
  - apply Permutation_nil in Hp. contradiction.
  - exists top, rest. split; [reflexivity|]. split.
    + eapply Permutation_in; [exact Hp | left; reflexivity].
    + intros s Hin.
      apply (Permutation_in _ (Permutation_sym Hp)) in Hin.
      destruct Hin as [<-|Hin]; [apply Qle_refl|].
      apply StronglySorted_inv in Hs. destruct Hs as [_ Hall].
      rewrite Forall_forall in Hall. apply Hall. exact Hin.
Qed.

(** ** The recommendation *)

Lemma scored_pool_nonempty (now : datetime) (restaurants : list Restaurant.t)
    (history : History) (date : datetime) :
  get_available_restaurants restaurants date <> [] ->
  scored_pool now restaurants history date <> [].
Proof.
  unfold scored_pool. intros Hne.
  destruct (exclude_recent _ _); [exact Hne | discriminate].
Qed.

Lemma get_recommendation_none `{Sorter} (now : datetime)
    (restaurants : list Restaurant.t) (history : History)
    (date : option datetime) :
  is_work_day (date_or_now date now) = false
  \/ get_available_restaurants restaurants (date_or_now date now) = [] ->
  get_recommendation now restaurants history date = Ok None.
Proof.
  unfold get_recommendation. intros [Hw|Ha].
  - rewrite Hw. reflexivity.
  - rewrite Ha. destruct (negb _); reflexivity.
Qed.

(** On a work day with an available restaurant the call runs
    [calculate_scores] on the pool and goes on with its outcome. *)
Lemma get_recommendation_unfold `{Sorter} (now : datetime)
    (restaurants : list Restaurant.t) (history : History)
    (date : option datetime) :
  is_work_day (date_or_now date now) = true ->
  get_available_restaurants restaurants (date_or_now date now) <> [] ->
  get_recommendation now restaurants history date
  = (scored <- calculate_scores now
                 (scored_pool now restaurants history (date_or_now date now))
                 history (date_or_now date now) ;;
     match sort_values scored with
     | top :: _ => Ok (Some (to_recommendation top))
     | [] => Raise IndexError
     end).
Proof.
  unfold get_recommendation, scored_pool. intros Hw Ha. rewrite Hw. simpl.
  destruct (get_available_restaurants restaurants (date_or_now date now))
    as [|r rs] eqn:Ea; [congruence|].
  destruct (exclude_recent _ (r :: rs)); reflexivity.
Qed.

Lemma Forall2_nonempty {A B : Type} (R : A -> B -> Prop) (l : list A)
    (l' : list B) :
  Forall2 R l l' -> l <> [] -> l' <> [].
Proof. destruct 1; [congruence | discriminate]. Qed.

(** On a work day with an available restaurant, and dates that read, the
    call returns the top row of the scored pool. *)
Lemma get_recommendation_some `{Sorter} (now : datetime)
    (restaurants : list Restaurant.t) (history : History)
    (date : option datetime) :
  dates_valid history = true ->
  is_work_day (date_or_now date now) = true ->
  get_available_restaurants restaurants (date_or_now date now) <> [] ->
  exists scored top,
    calculate_scores now
      (scored_pool now restaurants history (date_or_now date now))
      history (date_or_now date now) = Ok scored
    /\ In top scored
    /\ (forall s, In s scored -> score_ge top s)
    /\ get_recommendation now restaurants history date
       = Ok (Some (to_recommendation top)).
Proof.
  intros Hv Hw Ha.
  rewrite (get_recommendation_unfold now restaurants history date Hw Ha).
  destruct (calculate_scores_total now
              (scored_pool now restaurants history (date_or_now date now))
              history (date_or_now date now) Hv) as [scored [E HF]].
  assert (Hne : scored <> []).
  { eapply Forall2_nonempty; [exact HF|]. apply scored_pool_nonempty, Ha. }
  destruct (sort_values_top scored Hne) as (top & rest & Es & Hin & Hmax).
  exists scored, top. rewrite E. simpl. rewrite Es. auto.
Qed.





(** A date that does not read makes the call raise. *)
Example unreadable_date_raises :
  get_recommendation Sample.sunday [Sample.A]
    (mk_history [Visit.mk "10/03/2024" "A" 15 "Kabsa"]) (Some Sample.sunday)
  = Raise ValueError.
Proof. reflexivity. Qed.



(** Both restaurants were visited within the week: the frame scored is the
    whole available set, and the one visited longer ago is returned. *)
Example fallback_allows_repeat :
  exclude_recent
    (get_recent_restaurant_names Sample.sunday Sample.all_recent 7)
    (get_available_restaurants [Sample.A; Sample.B] Sample.sunday) = []
  /\ exists rec,
      get_recommendation Sample.sunday [Sample.A; Sample.B] Sample.all_recent
        (Some Sample.sunday) = Ok (Some rec)
      /\ Recommendation.name rec = "A"%string
      /\ Recommendation.days_since_visit rec = 3.
Proof.
  split; [reflexivity|]. eexists. split; [vm_compute; reflexivity|].
  split; reflexivity.
Qed.

(** Rows of equal final score: which one comes first is the sorter's choice.
    Two restaurants never visited and of the same price tie; the sorter
    that keeps input order returns the first, the one that reverses equal
    rows returns the second. *)
Example tie_break_follows_sorter :
  let twin := Restaurant.mk "A2" "North" "" "Kabsa" 10 15 in
  (exists rec,
      @get_recommendation insertion_sorter Sample.sunday [Sample.A; twin]
        Sample.no_visits (Some Sample.sunday) = Ok (Some rec)
      /\ Recommendation.name rec = "A"%string)
  /\ (exists rec,
         @get_recommendation reversing_sorter Sample.sunday [Sample.A; twin]
           Sample.no_visits (Some Sample.sunday) = Ok (Some rec)
         /\ Recommendation.name rec = "A2"%string).
Proof.
  split; eexists; (split; [vm_compute; reflexivity | reflexivity]).
Qed.

(** ** The clock and the date argument *)

Lemma apply_ext {A B : Type} (f g : A -> exn B) (l : list A) :
  (forall a, f a = g a) -> apply f l = apply g l.
Proof.
  intros Hfg. induction l as [|a l IH]; simpl; [reflexivity|].
  rewrite Hfg, IH. reflexivity.
Qed.

Lemma strptime_midnight (s : string) (d : datetime) :
  strptime s = Some d -> second d = 0.
Proof.
  unfold strptime. intros H.
  repeat match type of H with
         | context [match ?x with _ => _ end] => destruct x; try discriminate
         end.
  injection H as <-. reflexivity.
Qed.

(** Within one day the whole-day difference to a midnight does not depend on
    the time of day. *)
Lemma days_between_midnight (now last : datetime) :
  0 <= second now < 86400 -> second last = 0 ->
  days_between now last = toordinal now - toordinal last.
Proof.
  intros Hs Hl. unfold days_between. rewrite Hl, Z.sub_0_r.
  rewrite Z.div_add_l by lia. rewrite Z.div_small by exact Hs. lia.
Qed.

Lemma get_days_since_visit_same_day (now now' : datetime) (name : string)
    (history : History) :
  toordinal now = toordinal now' ->
  0 <= second now < 86400 -> 0 <= second now' < 86400 ->
  get_days_since_visit now name history
  = get_days_since_visit now' name history.
Proof.
  intros Ho Hs Hs'. unfold get_days_since_visit.
  destruct (filter _ (visits history)) as [|v vs]; [reflexivity|].
  destruct (strptime _) as [last|] eqn:E; [|reflexivity].
  apply strptime_midnight in E.
  rewrite !days_between_midnight by assumption. rewrite Ho. reflexivity.
Qed.

Lemma get_recommendation_same_weekday `{Sorter} (now : datetime)
    (restaurants : list Restaurant.t) (history : History)
    (date date' : datetime) :
  weekday date = weekday date' ->
  get_recommendation now restaurants history (Some date)
  = get_recommendation now restaurants history (Some date').
Proof.
  intros Hw.
  unfold get_recommendation, calculate_scores, get_available_restaurants,
    get_day_name, is_work_day, is_thursday, date_or_now.
  rewrite Hw. reflexivity.
Qed.

Lemma get_recommendation_same_day `{Sorter} (now now' : datetime)
    (restaurants : list Restaurant.t) (history : History)
    (date : option datetime) :
  toordinal now = toordinal now' ->
  0 <= second now < 86400 -> 0 <= second now' < 86400 ->
  get_recommendation now restaurants history date
  = get_recommendation now' restaurants history date.
Proof.
  intros Ho Hs Hs'.
  assert (Hday : weekday (date_or_now date now)
                 = weekday (date_or_now date now')).
  { destruct date; simpl; [reflexivity|]. unfold weekday. rewrite Ho.
    reflexivity. }
  assert (Hstats : get_monthly_stats now history
                   = get_monthly_stats now' history).
  { unfold get_monthly_stats, get_month_visits, Calendar.year, Calendar.month.
    rewrite Ho. reflexivity. }
  assert (Hrecent : get_recent_restaurant_names now history 7
                    = get_recent_restaurant_names now' history 7).
  { unfold get_recent_restaurant_names, get_recent_visits, strftime,
      Calendar.year, Calendar.month, Calendar.day, minus_days.
    simpl. rewrite Ho. reflexivity. }
  assert (Hscores : forall rs d d',
             weekday d = weekday d' ->
             calculate_scores now rs history d
             = calculate_scores now' rs history d').
  { intros rs d d' Hw. unfold calculate_scores, is_thursday.
    rewrite Hstats, Hw. apply apply_ext. intros r.
    rewrite (get_days_since_visit_same_day now now') by assumption.
    reflexivity. }
  unfold get_recommendation.
  rewrite Hrecent.
  rewrite (Hscores _ (date_or_now date now) (date_or_now date now') Hday).
  unfold get_available_restaurants, get_day_name, is_work_day.
  rewrite Hday. reflexivity.
Qed.

Lemma Forall2_In_r {A B : Type} (R : A -> B -> Prop) (l : list A)
    (l' : list B) (b : B) :
  Forall2 R l l' -> In b l' -> exists a, In a l /\ R a b.
Proof.
  induction 1 as [|a b' l l' Hab _ IH]; simpl; [tauto|].
  intros [<- | Hin]; [eauto|].
  destruct (IH Hin) as [a' [Ha' HR]]. eauto.
Qed.

(** The day count a recommendation carries is the one counted from the
    clock. *)
Lemma recommendation_days_from_clock `{Sorter} (now : datetime)
    (restaurants : list Restaurant.t) (history : History)
    (date : option datetime) (rec : Recommendation.t) :
  get_recommendation now restaurants history date = Ok (Some rec) ->
  get_days_since_visit now (Recommendation.name rec) history
  = Ok (Recommendation.days_since_visit rec).
Proof.
  intros E.
  destruct (is_work_day (date_or_now date now)) eqn:Hw.
  2:{ rewrite get_recommendation_none in E by auto. discriminate. }
  destruct (get_available_restaurants restaurants (date_or_now date now))
    as [|r0 rs0] eqn:Ha.
  { rewrite get_recommendation_none in E by auto. discriminate. }
  rewrite get_recommendation_unfold in E by (auto; rewrite Ha; discriminate).
  destruct (calculate_scores _ _ _ _) as [scored|e] eqn:Es;
    simpl in E; [|discriminate].
  pose proof (sort_values_perm scored) as Hp.
  destruct (sort_values scored) as [|top rest]; [discriminate|].
  injection E as <-.
  assert (Hin : In top scored)
    by (eapply Permutation_in; [exact Hp | left; reflexivity]).
  apply calculate_scores_rows in Es.
  destruct (Forall2_In_r _ _ _ _ Es Hin) as (r & _ & Hr & Hd & _).
  simpl. rewrite Hr. exact Hd.
Qed.

Lemma sort_values_single `{Sorter} (s : Scored.t) : sort_values [s] = [s].
Proof.
  apply Permutation_length_1_inv, Permutation_sym, sort_values_perm.
Qed.

(** The visit of 2024-03-01 lies nine days before one clock and ten before
    the other. *)
Lemma recommendation_changes_with_clock `{Sorter} :
  let history := mk_history [Visit.mk "2024-03-01" "A" 15 "Kabsa"] in
  get_recommendation Sample.sunday [Sample.A] history (Some Sample.sunday)
  <> get_recommendation Sample.monday [Sample.A] history (Some Sample.sunday).
Proof.
  intros history.
  rewrite !get_recommendation_unfold
    by (try reflexivity; vm_compute; discriminate).
  replace (calculate_scores Sample.sunday _ _ _)
    with (Ok [Scored.mk Sample.A 9 (recency_of_days 9) (15 # 40)
               (final_column false (recency_of_days 9) (15 # 40))])
    by (vm_compute; reflexivity).
  replace (calculate_scores Sample.monday _ _ _)
    with (Ok [Scored.mk Sample.A 10 (recency_of_days 10) (15 # 40)
               (final_column false (recency_of_days 10) (15 # 40))])
    by (vm_compute; reflexivity).
  simpl. rewrite !sort_values_single.
  intros E. injection E as E. vm_compute in E. discriminate.
Qed.

(** C10.  The date argument enters the recommendation through its weekday
    alone, while the recent-visit window and the day counts come from the
    clock: the day count of the result is the one counted from the clock;
    two calls on the same arguments with the clock on the same day return
    the same; and there are arguments on which two clocks a day apart
    return different results. *)
Theorem recommendation_relative_to_clock :
  forall (S : Sorter),
    (forall now restaurants history date date',
        weekday date = weekday date' ->
        get_recommendation now restaurants history (Some date)
        = get_recommendation now restaurants history (Some date'))
    /\ (forall now restaurants history date rec,
           get_recommendation now restaurants history date = Ok (Some rec) ->
           get_days_since_visit now (Recommendation.name rec) history
           = Ok (Recommendation.days_since_visit rec))
    /\ (forall now now' restaurants history date,
           toordinal now = toordinal now' ->
           0 <= second now < 86400 -> 0 <= second now' < 86400 ->
           get_recommendation now restaurants history date
           = get_recommendation now' restaurants history date)
    /\ (exists now now' restaurants history date,
           get_recommendation now restaurants history date
           <> get_recommendation now' restaurants history date).
Proof.
  intros S. split; [|split; [|split]].
  - intros. apply get_recommendation_same_weekday. assumption.
  - intros. eapply recommendation_days_from_clock. eassumption.
  - intros. apply get_recommendation_same_day; assumption.
  - exists Sample.sunday, Sample.monday, [Sample.A],
      (mk_history [Visit.mk "2024-03-01" "A" 15 "Kabsa"]),
      (Some Sample.sunday).
    apply recommendation_changes_with_clock.
Qed.

Lemma recommendation_relative_to_clock_witness :
  get_recommendation Sample.sunday [Sample.A; Sample.B] Sample.all_recent
    (Some Sample.sunday)
  = get_recommendation Sample.sunday [Sample.A; Sample.B] Sample.all_recent
      (Some (mk_datetime 738962 0)).
Proof.
  apply (proj1 (recommendation_relative_to_clock insertion_sorter)).
  reflexivity.
Defined.

(** ** The explanation *)

(** C9, as the code has it.  On a day other than Thursday the explanation
    has at most one budget clause, chosen by the current average of the
    monthly statistics with the bounds of the scoring: above 25 the clause
    on bringing the average down, with the price and the average; from 20
    to 25 the on-track clause with the average; below 20 the
    treat-yourself clause with the average when the price is above 25, and
    no budget clause when the price is 25 or less. *)
Theorem budget_clause_by_average :
  forall (now : datetime) (recommendation : Recommendation.t)
         (history : History) (date : option datetime),
    is_thursday (date_or_now date now) = false ->
    let avg := current_average (get_monthly_stats now history) in
    let price := Recommendation.price recommendation in
    let budget :=
      filter is_budget_clause
        (explain_parts now recommendation history date) in
    ((25 < avg)%Q -> budget = [brings_average_down price avg])
    /\ ((20 <= avg <= 25)%Q -> budget = [on_track avg])
    /\ ((avg < 20)%Q -> 25 < price -> budget = [treat_yourself avg])
    /\ ((avg < 20)%Q -> price <= 25 -> budget = []).
Proof.
  intros now recommendation history date Hthu avg price budget.
  subst budget. unfold explain_parts. rewrite Hthu. simpl negb. cbv zeta.
  fold avg price.
  set (parts := if 999 <=? _ then _ else _).
  assert (Hparts : filter is_budget_clause parts = []).
  { subst parts. destruct (999 <=? _); [reflexivity|].
    destruct (14 <? _); [reflexivity|]. destruct (7 <? _); reflexivity. }
  destruct (Qltb 25 avg) eqn:E25.
  { apply Qltb_true in E25. rewrite filter_app, Hparts.
    repeat split; intros; try reflexivity; lra. }
  apply Qltb_false in E25.
  destruct (Qltb avg 20) eqn:E20.
  - apply Qltb_true in E20.
    assert (Hon : Qle_bool 20 avg = false) by (apply Qle_bool_false; exact E20).
    destruct (25 <? price) eqn:Ep; simpl.
    + apply Z.ltb_lt in Ep. rewrite filter_app, Hparts.
      repeat split; intros; try reflexivity; try lra; lia.
    + apply Z.ltb_ge in Ep. rewrite Hon. simpl. rewrite Hparts.
      repeat split; intros; try reflexivity; try lra; lia.
  - apply Qltb_false in E20. simpl.
    assert (H20 : Qle_bool 20 avg = true) by (apply Qle_bool_iff; exact E20).
    assert (H25 : Qle_bool avg 25 = true) by (apply Qle_bool_iff; exact E25).
    rewrite H20, H25. simpl. rewrite filter_app, Hparts.
    repeat split; intros; try reflexivity; lra.
Qed.

Lemma budget_clause_by_average_witness :
  filter is_budget_clause
    (explain_parts Sample.sunday (Recommendation.mk "A" "North" "Kabsa" 15 10
                                    999 1 (5 # 8) (13 # 16))
       Sample.over_budget (Some Sample.sunday))
  = [brings_average_down 15
       (current_average (get_monthly_stats Sample.sunday Sample.over_budget))].
Proof.
  apply (budget_clause_by_average Sample.sunday
           (Recommendation.mk "A" "North" "Kabsa" 15 10 999 1 (5 # 8)
              (13 # 16))
           Sample.over_budget (Some Sample.sunday)); reflexivity.
Defined.

(** C9 fails as stated: on a Sunday with no visit this month (the average
    is 0, below 20) the recommendation of A at price 15 is explained by the
    recency clause alone, with no budget clause. *)
Lemma cheap_pick_under_budget_has_no_budget_clause :
  exists rec,
    get_recommendation Sample.sunday [Sample.A] Sample.no_visits
      (Some Sample.sunday) = Ok (Some rec)
    /\ is_thursday Sample.sunday = false
    /\ Recommendation.price rec = 15
    /\ (current_average (get_monthly_stats Sample.sunday Sample.no_visits)
        == 0)%Q
    /\ explain_parts Sample.sunday rec Sample.no_visits (Some Sample.sunday)
       = [never_been_here]
    /\ filter is_budget_clause
         (explain_parts Sample.sunday rec Sample.no_visits
            (Some Sample.sunday)) = [].
Proof.
  eexists. split; [vm_compute; reflexivity|]. repeat split.
Qed.

(** ** Adding and deleting a visit *)

Lemma filter_all {A : Type} (f : A -> bool) (l : list A) :
  (forall a, In a l -> f a = true) -> filter f l = l.
Proof.
  induction l as [|a l IH]; simpl; intros Hf; [reflexivity|].
  rewrite (Hf a (or_introl eq_refl)), IH; auto.
Qed.

(** C7, as the code has it.  Adding a visit and then deleting with the date
    and restaurant it was stored under leaves the prior list without its
    visits of that date and restaurant; both calls report success.  When the
    prior list has no visit of that date and restaurant, it is restored as
    it was, order included. *)
Theorem add_then_delete :
  forall (now : datetime) (restaurant : string) (price : Q) (item : string)
         (date : option string) (s : Store),
    let stored_date := date_or_today date now in
    let prior := visits (load_history s) in
    let added := add_visit now restaurant price item date s in
    let deleted := delete_visit stored_date restaurant (fst added) in
    (forall v, In v prior -> same_key stored_date restaurant v = false) ->
    visits (load_history (fst deleted)) = prior
    /\ Permutation (visits (load_history (fst deleted))) prior
    /\ visits (load_history (fst added))
       = prior ++ [Visit.mk stored_date restaurant price item]
    /\ snd added = true /\ snd deleted = true.
Proof.
  intros now restaurant price item date s stored_date prior added deleted Hno.
  assert (E : visits (load_history (fst deleted)) = prior).
  { subst deleted added. unfold delete_visit, add_visit, save_history. simpl.
    fold prior stored_date. rewrite filter_app. simpl.
    rewrite !String.eqb_refl. simpl. rewrite app_nil_r.
    apply filter_all. intros v Hv. apply Hno in Hv.
    unfold same_key in Hv. rewrite Hv. reflexivity. }
  split; [exact E|]. split; [rewrite E; reflexivity|].
  repeat split.
Qed.

Lemma add_then_delete_witness :
  visits
    (load_history
       (fst (delete_visit "2024-03-11" "B"
               (fst (add_visit Sample.sunday "B" 35 "Mandi"
                       (Some "2024-03-11"%string)
                       (Some Sample.all_recent))))))
  = visits Sample.all_recent.
Proof.
  apply (add_then_delete Sample.sunday "B" 35 "Mandi"
           (Some "2024-03-11"%string) (Some Sample.all_recent)).
  intros v [<- | [<- | []]]; reflexivity.
Defined.

(** Whatever the prior list, what is left is the prior list without the
    visits of the stored date and restaurant. *)
Lemma add_then_delete_general (now : datetime) (restaurant : string)
    (price : Q) (item : string) (date : option string) (s : Store) :
  visits
    (load_history
       (fst (delete_visit (date_or_today date now) restaurant
               (fst (add_visit now restaurant price item date s)))))
  = filter (fun v => negb (same_key (date_or_today date now) restaurant v))
      (visits (load_history s)).
Proof.
  unfold delete_visit, add_visit, save_history. simpl.
  rewrite filter_app. simpl. rewrite !String.eqb_refl. simpl.
  apply app_nil_r.
Qed.

(** C7 fails as stated: with a visit to A on 2024-03-10 already stored,
    adding a second one for the same day and deleting by that date and
    restaurant removes both, and the prior list is not restored. *)
Lemma add_then_delete_drops_earlier_visit :
  let prior := mk_history [Visit.mk "2024-03-10" "A" 15 "Kabsa"] in
  let added :=
    fst (add_visit Sample.sunday "A" 15 "Kabsa" (Some "2024-03-10"%string)
           (Some prior)) in
  let deleted := fst (delete_visit "2024-03-10" "A" added) in
  visits (load_history deleted) = []
  /\ ~ Permutation (visits (load_history deleted)) (visits prior).
Proof.
  split; [reflexivity|]. simpl. intros H. apply Permutation_nil in H.
  discriminate.
Qed.

(** * Further properties of the code *)

(** ** The work week *)

Lemma weekday_range (date : datetime) :
  weekday date = 0 \/ weekday date = 1 \/ weekday date = 2
  \/ weekday date = 3 \/ weekday date = 4 \/ weekday date = 5
  \/ weekday date = 6.
Proof.
  unfold weekday.
  pose proof (Z.mod_pos_bound (toordinal date + 6) 7 eq_refl). lia.
Qed.

Ltac by_weekday date :=
  unfold get_day_name, is_work_day, is_thursday in *;
  destruct (weekday_range date)
    as [W | [W | [W | [W | [W | [W | W]]]]]];
  rewrite W in *; simpl in *.

Lemma get_day_name_empty (date : datetime) :
  is_work_day date = false <-> get_day_name date = ""%string.
Proof.
  by_weekday date; split; intros H; try reflexivity; discriminate.
Qed.

(** X1.  The day name is one of the five names of the work week exactly on a work
    day and the empty text otherwise; Thursday is a work day, the one named
    Thursday; the classification repeats every seven days. *)
Theorem work_week :
  forall date : datetime,
    (is_work_day date = true <->
     In (get_day_name date)
       ["Sunday"; "Monday"; "Tuesday"; "Wednesday"; "Thursday"]%string)
    /\ (is_work_day date = false <-> get_day_name date = ""%string)
    /\ (is_thursday date = true <-> get_day_name date = "Thursday"%string)
    /\ (is_thursday date = true -> is_work_day date = true)
    /\ (forall weeks : Z,
           get_day_name
             (mk_datetime (toordinal date + 7 * weeks) (second date))
           = get_day_name date).
Proof.
  intros date. split; [|split; [|split; [|split]]].
  - by_weekday date; split; intros H; try reflexivity; try discriminate;
      try tauto;
      repeat (destruct H as [H | H]; try discriminate); try contradiction.
  - by_weekday date; split; intros H; try reflexivity; discriminate.
  - by_weekday date; split; intros H; try reflexivity; discriminate.
  - by_weekday date; intros H; try reflexivity; discriminate.
  - intros weeks. unfold get_day_name, weekday. cbn [toordinal].
    replace (toordinal date + 7 * weeks + 6)
      with (toordinal date + 6 + weeks * 7) by lia.
    rewrite Z.mod_add by lia. reflexivity.
Qed.

(** ** Availability *)

Lemma lower_day_name_nonempty (w : Z) (name : string) :
  dict_get w WORK_DAYS = Some name -> lower name <> ""%string.
Proof.
  unfold WORK_DAYS. cbn [dict_get].
  repeat (destruct (_ =? w);
          [intros E; injection E as <-; simpl; discriminate|]).
  discriminate.
Qed.

Lemma lower_day_name_injective (w w' : Z) (name name' : string) :
  dict_get w WORK_DAYS = Some name ->
  dict_get w' WORK_DAYS = Some name' ->
  lower name = lower name' -> w = w'.
Proof.
  unfold WORK_DAYS. cbn [dict_get]. intros E E' Hl.
  repeat match type of E with
         | context [?k =? w] =>
             destruct (Z.eqb_spec k w);
             [injection E as <-
             | try discriminate E]
         end;
    repeat match type of E' with
           | context [?k =? w'] =>
               destruct (Z.eqb_spec k w');
               [injection E' as <-
               | try discriminate E']
           end;
    try discriminate Hl; congruence.
Qed.

Lemma get_day_name_dict (date : datetime) (name : string) :
  dict_get (weekday date) WORK_DAYS = Some name ->
  get_day_name date = name /\ is_work_day date = true.
Proof.
  unfold get_day_name, is_work_day. intros ->. auto.
Qed.

Lemma In_available (restaurants : list Restaurant.t) (date : datetime)
    (r : Restaurant.t) :
  In r (get_available_restaurants restaurants date) <->
  In r restaurants
  /\ is_work_day date = true
  /\ (Restaurant.specific_day r = ""%string
      \/ lower (Restaurant.specific_day r) = lower (get_day_name date)).
Proof.
  unfold get_available_restaurants.
  destruct (String.eqb_spec (get_day_name date) "") as [Hd | Hd].
  - apply get_day_name_empty in Hd. simpl. split; [tauto|].
    intros (_ & Hw & _). congruence.
  - assert (Hw : is_work_day date = true).
    { destruct (is_work_day date) eqn:E; [reflexivity|].
      apply get_day_name_empty in E. contradiction. }
    rewrite filter_In, orb_true_iff, !String.eqb_eq. tauto.
Qed.

(** X2.  A restaurant is offered on a date exactly when it is in the table, the
    date is a work day, and its day restriction is empty or spells the name
    of that day in any letter case; restaurants without a restriction are
    offered on every work day. *)
Theorem available_iff :
  forall (restaurants : list Restaurant.t) (date : datetime)
         (r : Restaurant.t),
    (In r (get_available_restaurants restaurants date) <->
     In r restaurants
     /\ is_work_day date = true
     /\ (Restaurant.specific_day r = ""%string
         \/ lower (Restaurant.specific_day r) = lower (get_day_name date)))
    /\ (In r restaurants -> is_work_day date = true ->
        Restaurant.specific_day r = ""%string ->
        In r (get_available_restaurants restaurants date)).
Proof.
  intros restaurants date r. split; [apply In_available|].
  intros Hin Hw Hs. apply In_available. auto.
Qed.

Lemma available_iff_witness :
  In Sample.A
    (get_available_restaurants [Sample.A; Sample.C] Sample.thursday).
Proof.
  apply (available_iff [Sample.A; Sample.C] Sample.thursday Sample.A);
    [left|..]; reflexivity.
Defined.

(** X3.  A restaurant restricted to a day of the work week, in whatever letter
    case the day is spelled, is offered on the dates of that weekday and on
    no other. *)
Theorem restricted_to_one_weekday :
  forall (restaurants : list Restaurant.t) (date : datetime)
         (r : Restaurant.t) (w : Z) (name : string),
    dict_get w WORK_DAYS = Some name ->
    lower (Restaurant.specific_day r) = lower name ->
    (In r (get_available_restaurants restaurants date) <->
     In r restaurants /\ weekday date = w).
Proof.
  intros restaurants date r w name Hname Hlow.
  rewrite (In_available restaurants date r).
  assert (Hne : Restaurant.specific_day r <> ""%string).
  { intros E. rewrite E in Hlow. simpl in Hlow. symmetry in Hlow.
    exact (lower_day_name_nonempty w name Hname Hlow). }
  split.
  - intros (Hin & Hw & [Hs | Hs]); [contradiction|]. split; [exact Hin|].
    unfold is_work_day, get_day_name in *.
    destruct (dict_get (weekday date) WORK_DAYS) as [name'|] eqn:E';
      [|discriminate].
    symmetry. eapply lower_day_name_injective; eauto. congruence.
  - intros [Hin <-]. destruct (get_day_name_dict date name Hname) as [-> Hw].
    auto.
Qed.

Lemma restricted_to_one_weekday_witness :
  In Sample.C (get_available_restaurants [Sample.A; Sample.C] Sample.monday)
  /\ ~ In Sample.C
         (get_available_restaurants [Sample.A; Sample.C] Sample.thursday).
Proof.
  pose proof (fun d =>
                restricted_to_one_weekday [Sample.A; Sample.C] d Sample.C 0
                  "Monday" eq_refl eq_refl) as W.
  split.
  - apply (W Sample.monday). split; [right; left|]; reflexivity.
  - intros H. apply (W Sample.thursday) in H. destruct H as [_ H].
    discriminate H.
Defined.

(** X4.  A restaurant whose day restriction is not empty and names no day of the
    work week is offered on no date. *)
Theorem unknown_day_never_available :
  forall (restaurants : list Restaurant.t) (date : datetime)
         (r : Restaurant.t),
    Restaurant.specific_day r <> ""%string ->
    (forall w name, dict_get w WORK_DAYS = Some name ->
                    lower (Restaurant.specific_day r) <> lower name) ->
    ~ In r (get_available_restaurants restaurants date).
Proof.
  intros restaurants date r Hne Hno Hin.
  apply In_available in Hin.
  destruct Hin as (_ & Hw & [Hs | Hs]); [contradiction|].
  unfold is_work_day, get_day_name in *.
  destruct (dict_get (weekday date) WORK_DAYS) as [name|] eqn:E;
    [|discriminate].
  exact (Hno _ _ E Hs).
Qed.

Lemma unknown_day_never_available_witness :
  ~ In (Restaurant.mk "D" "West" "Friday" "Falafel" 5 12)
      (get_available_restaurants
         [Sample.A; Restaurant.mk "D" "West" "Friday" "Falafel" 5 12]
         Sample.monday).
Proof.
  apply (unknown_day_never_available
           [Sample.A; Restaurant.mk "D" "West" "Friday" "Falafel" 5 12]
           Sample.monday (Restaurant.mk "D" "West" "Friday" "Falafel" 5 12)).
  - discriminate.
  - intros w name. unfold WORK_DAYS. cbn [dict_get].
    repeat (destruct (_ =? w);
            [intros E; injection E as <-; simpl; discriminate|]).
    discriminate.
Defined.

(** ** More on the monthly statistics *)

Lemma round_half_even_comp (a b : Q) :
  (a == b)%Q -> round_half_even a = round_half_even b.
Proof.
  intros Hab. unfold round_half_even. rewrite (Qfloor_comp a b Hab).
  assert (Hc : ((a - inject_Z (Qfloor b) ?= 1 # 2)
                = (b - inject_Z (Qfloor b) ?= 1 # 2))%Q)
    by (apply Qcompare_comp; [rewrite Hab|]; reflexivity).
  rewrite Hc. reflexivity.
Qed.


(** The statistics of a month with visits, field by field. *)
Lemma get_monthly_stats_visits (now : datetime) (history : History)
    (v : Visit.t) (vs : list Visit.t) :
  get_month_visits now history None None = v :: vs ->
  let n := Z.of_nat (List.length (v :: vs)) in
  let average := (sum_prices (v :: vs) / inject_Z n)%Q in
  get_monthly_stats now history
  = mk_stats n (sum_prices (v :: vs)) (py_round average 1)
      (if Qltb average 20 then green
       else if Qle_bool average 25 then yellow else red)
      (45 # 2).
Proof.
  intros E n average. unfold get_monthly_stats. rewrite E.
  assert (Hn : (0 <? Z.of_nat (List.length (v :: vs))) = true)
    by (apply Z.ltb_lt; simpl List.length; lia).
  rewrite Hn. reflexivity.
Qed.

Lemma total_of_between (vs : list Visit.t) (lo hi : Q) :
  (forall v, In v vs -> (lo <= Visit.price v <= hi)%Q) ->
  (inject_Z (Z.of_nat (List.length vs)) * lo <= total_of vs
   <= inject_Z (Z.of_nat (List.length vs)) * hi)%Q.
Proof.
  induction vs as [|v vs IH]; intros Hb.
  - simpl. split; rewrite Qmult_0_l; apply Qle_refl.
  - assert (Hv : (lo <= Visit.price v <= hi)%Q) by (apply Hb; left; reflexivity).
    assert (Hvs : (inject_Z (Z.of_nat (List.length vs)) * lo <= total_of vs
                   <= inject_Z (Z.of_nat (List.length vs)) * hi)%Q)
      by (apply IH; intros; apply Hb; right; assumption).
    assert (Hn : (inject_Z (Z.of_nat (List.length (v :: vs)))
                  == inject_Z (Z.of_nat (List.length vs)) + 1)%Q).
    { simpl List.length. rewrite Nat2Z.inj_succ, <- Z.add_1_r.
      rewrite inject_Z_plus. reflexivity. }
    rewrite Hn. cbn [total_of].
    set (n := inject_Z (Z.of_nat (List.length vs))) in *.
    split; lra.
Qed.

Lemma average_between (total n lo hi : Q) :
  (0 < n)%Q -> (n * lo <= total <= n * hi)%Q ->
  (lo <= total / n <= hi)%Q.
Proof.
  intros Hn [Hlo Hhi]. split.
  - apply Qle_shift_div_l; [exact Hn|]. rewrite Qmult_comm. exact Hlo.
  - apply Qle_shift_div_r; [exact Hn|]. rewrite Qmult_comm. exact Hhi.
Qed.

(** X5.  When every visit of the month costs between [lo] and [hi], so does the
    average, the displayed average is within 0.05 of that range, and the
    status follows: green when all prices are below 20, red when all are
    above 25, yellow when all lie from 20 to 25. *)
Theorem average_between_prices :
  forall (now : datetime) (history : History) (lo hi : Q),
    get_month_visits now history None None <> [] ->
    (forall v, In v (get_month_visits now history None None) ->
               (lo <= Visit.price v <= hi)%Q) ->
    let stats := get_monthly_stats now history in
    (inject_Z (days_visited stats) * lo <= total_spent stats
     <= inject_Z (days_visited stats) * hi)%Q
    /\ (lo - (1 # 20) <= current_average stats <= hi + (1 # 20))%Q
    /\ ((hi < 20)%Q -> status stats = green)
    /\ ((20 <= lo)%Q -> (hi <= 25)%Q -> status stats = yellow)
    /\ ((25 < lo)%Q -> status stats = red).
Proof.
  intros now history lo hi Hne Hb stats. subst stats.
  destruct (get_month_visits now history None None) as [|v vs] eqn:E;
    [congruence|].
  rewrite (get_monthly_stats_visits now history v vs E).
  cbn [days_visited total_spent current_average status].
  pose proof (total_of_between (v :: vs) lo hi Hb) as Ht.
  rewrite <- sum_prices_total in Ht.
  set (n := inject_Z (Z.of_nat (List.length (v :: vs)))) in *.
  assert (Hn : (0 < n)%Q).
  { subst n. change 0%Q with (inject_Z 0). rewrite <- Zlt_Qlt.
    simpl List.length. lia. }
  pose proof (average_between _ n lo hi Hn Ht) as Ha.
  pose proof (py_round_1_near (sum_prices (v :: vs) / n)) as Hr.
  apply Qabs_Qle_condition in Hr.
  set (average := (sum_prices (v :: vs) / n)%Q) in *.
  split; [exact Ht|]. split; [split; lra|].
  destruct (Qltb average 20) eqn:E20.
  - apply Qltb_true in E20. repeat split; intros; try reflexivity; lra.
  - apply Qltb_false in E20.
    destruct (Qle_bool average 25) eqn:E25.
    + apply Qle_bool_iff in E25. repeat split; intros; try reflexivity; lra.
    + apply Qle_bool_false in E25.
      repeat split; intros; try reflexivity; lra.
Qed.

Lemma average_between_prices_witness :
  status (get_monthly_stats Sample.sunday Sample.on_target) = yellow.
Proof.
  apply (average_between_prices Sample.sunday Sample.on_target 20 24).
  - discriminate.
  - intros v [<- | [<- | []]]; split; discriminate.
  - discriminate.
  - discriminate.
Defined.

(** X6.  The bands of the scoring and the status agree away from the two bounds:
    the over-budget branch of the budget score (displayed average above 25)
    is taken only with the status red, the under-budget branch (displayed
    average below 20) only with the status green, and a yellow status always
    scores as on track. *)
Theorem scoring_band_and_status :
  forall (now : datetime) (history : History),
    let stats := get_monthly_stats now history in
    ((25 < current_average stats)%Q -> status stats = red)
    /\ ((current_average stats < 20)%Q -> status stats = green)
    /\ (status stats = yellow ->
        (20 <= current_average stats <= 25)%Q).
Proof.
  intros now history stats. subst stats.
  destruct (get_month_visits now history None None) as [|v vs] eqn:E.
  - unfold get_monthly_stats. rewrite E. cbn [current_average status].
    split; [intros H; exfalso; lra | split; [reflexivity | discriminate]].
  - rewrite (get_monthly_stats_visits now history v vs E).
    cbn [current_average status].
    set (average := (sum_prices (v :: vs) / _)%Q).
    pose proof (py_round_1_near average) as Hr.
    apply Qabs_Qle_condition in Hr.
    pose proof (py_round_1_tenths average) as Ht.
    set (tenths := round_half_even (average * 10)) in *.
    rewrite Ht in *.
    assert (Hup : forall k : Z, (inject_Z k < inject_Z tenths)%Q ->
                                (inject_Z (k + 1) <= inject_Z tenths)%Q)
      by (intros k; rewrite <- Zlt_Qlt, <- Zle_Qle; lia).
    assert (Hq : (tenths # 10 == inject_Z tenths * (1 # 10))%Q)
      by (unfold Qeq, Qmult, inject_Z; simpl; lia).
    rewrite Hq in *.
    destruct (Qltb average 20) eqn:E20;
      [apply Qltb_true in E20 | apply Qltb_false in E20;
       destruct (Qle_bool average 25) eqn:E25;
       [apply Qle_bool_iff in E25 | apply Qle_bool_false in E25]].
    + split; [|split; [reflexivity | discriminate]].
      intros H. exfalso. lra.
    + split; [|split].
      * intros H. exfalso.
        assert (H' : (inject_Z 250 < inject_Z tenths)%Q)
          by (change (inject_Z 250) with 250%Q; lra).
        apply Hup in H'. change (inject_Z (250 + 1)) with 251%Q in H'. lra.
      * intros H. exfalso.
        assert (H' : (inject_Z tenths < inject_Z 200)%Q)
          by (change (inject_Z 200) with 200%Q; lra).
        rewrite <- Zlt_Qlt in H'.
        assert (H'' : (inject_Z tenths <= inject_Z 199)%Q)
          by (rewrite <- Zle_Qle; lia).
        change (inject_Z 199) with 199%Q in H''. lra.
      * intros _.
        assert (Hlo : (inject_Z 199 < inject_Z tenths)%Q)
          by (change (inject_Z 199) with 199%Q; lra).
        apply Hup in Hlo. change (inject_Z (199 + 1)) with 200%Q in Hlo.
        assert (Hhi : (inject_Z tenths <= inject_Z 250)%Q).
        { rewrite <- Zle_Qle.
          assert (H' : (inject_Z tenths < inject_Z 251)%Q)
            by (change (inject_Z 251) with 251%Q; lra).
          rewrite <- Zlt_Qlt in H'. lia. }
        change (inject_Z 250) with 250%Q in Hhi. split; lra.
    + split; [reflexivity | split; [|discriminate]].
      intros H. exfalso.
      assert (H' : (inject_Z tenths < inject_Z 200)%Q)
        by (change (inject_Z 200) with 200%Q; lra).
      rewrite <- Zlt_Qlt in H'.
      assert (H'' : (inject_Z tenths <= inject_Z 199)%Q)
        by (rewrite <- Zle_Qle; lia).
      change (inject_Z 199) with 199%Q in H''. lra.
Qed.

Lemma scoring_band_and_status_witness :
  status (get_monthly_stats Sample.sunday Sample.over_budget) = red.
Proof.
  apply (scoring_band_and_status Sample.sunday Sample.over_budget).
  reflexivity.
Defined.

Lemma get_month_visits_app (now : datetime) (vs ws : list Visit.t) :
  get_month_visits now (mk_history (vs ++ ws)) None None
  = get_month_visits now (mk_history vs) None None
    ++ get_month_visits now (mk_history ws) None None.
Proof. unfold get_month_visits. simpl. apply filter_app. Qed.

Lemma get_monthly_stats_month_visits (now : datetime) (h h' : History) :
  get_month_visits now h None None = get_month_visits now h' None None ->
  get_monthly_stats now h = get_monthly_stats now h'.
Proof. unfold get_monthly_stats. intros ->. reflexivity. Qed.

(** X7.  A visit dated outside the current month, wherever it stands in the
    history, changes nothing in the statistics. *)
Theorem other_months_do_not_count :
  forall (now : datetime) (before after : list Visit.t) (v : Visit.t),
    String.prefix (year_month_prefix (Calendar.year now) (Calendar.month now))
      (Visit.date v) = false ->
    get_monthly_stats now (mk_history (before ++ v :: after))
    = get_monthly_stats now (mk_history (before ++ after)).
Proof.
  intros now before after v Hv. apply get_monthly_stats_month_visits.
  rewrite !get_month_visits_app. f_equal.
  unfold get_month_visits, or_default. cbn [visits filter].
  rewrite Hv. reflexivity.
Qed.

Lemma other_months_do_not_count_witness :
  get_monthly_stats Sample.sunday
    (mk_history
       ([Visit.mk "2024-03-01" "C" 25 "Shawarma"]
        ++ Visit.mk "2024-02-28" "A" 90 "Kabsa"
           :: [Visit.mk "2024-03-02" "C" 35 "Shawarma"]))
  = get_monthly_stats Sample.sunday Sample.over_budget.
Proof.
  apply (other_months_do_not_count Sample.sunday
           [Visit.mk "2024-03-01" "C" 25 "Shawarma"]
           [Visit.mk "2024-03-02" "C" 35 "Shawarma"]
           (Visit.mk "2024-02-28" "A" 90 "Kabsa")).
  reflexivity.
Defined.

Lemma prefix_append (p t : string) : String.prefix p (p ++ t) = true.
Proof.
  induction p as [|c p IH]; simpl; [destruct t; reflexivity|].
  destruct (ascii_dec c c); [exact IH | congruence].
Qed.

Lemma strftime_in_current_month (now : datetime) :
  String.prefix (year_month_prefix (Calendar.year now) (Calendar.month now))
    (strftime now) = true.
Proof. unfold strftime. apply prefix_append. Qed.

Lemma sum_prices_snoc (vs : list Visit.t) (v : Visit.t) :
  (sum_prices (vs ++ [v]) == sum_prices vs + Visit.price v)%Q.
Proof.
  unfold sum_prices. rewrite fold_left_app. simpl. reflexivity.
Qed.

(** X8.  Logging a visit under today's date (no date given) raises the month's
    day count by one and the month's total by the price paid. *)
Theorem logged_visit_counts :
  forall (now : datetime) (restaurant : string) (price : Q) (item : string)
         (s : Store),
    let before := get_monthly_stats now (load_history s) in
    let after :=
      get_monthly_stats now
        (load_history (fst (add_visit now restaurant price item None s))) in
    days_visited after = days_visited before + 1
    /\ (total_spent after == total_spent before + price)%Q.
Proof.
  intros now restaurant price item s before after. subst before after.
  unfold add_visit, save_history. cbn [fst load_history date_or_today].
  set (v := Visit.mk (strftime now) restaurant price item).
  destruct (load_history s) as [vs]. cbn [visits].
  assert (Hm : get_month_visits now (mk_history (vs ++ [v])) None None
               = get_month_visits now (mk_history vs) None None ++ [v]).
  { rewrite get_month_visits_app. f_equal.
    unfold get_month_visits, or_default. cbn [visits filter].
    change (Visit.date v) with (strftime now).
    rewrite strftime_in_current_month. reflexivity. }
  destruct (get_month_visits now (mk_history vs) None None) as [|w ws] eqn:E.
  - rewrite (get_monthly_stats_visits _ _ v [] Hm).
    unfold get_monthly_stats at 1 2. rewrite E. simpl.
    split; [reflexivity|]. unfold sum_prices. simpl. reflexivity.
  - rewrite (get_monthly_stats_visits _ _ w (ws ++ [v]) Hm).
    rewrite !(get_monthly_stats_visits _ _ w ws E).
    cbn [days_visited total_spent]. split.
    + simpl List.length. rewrite length_app. simpl List.length. lia.
    + apply (sum_prices_snoc (w :: ws) v).
Qed.

(** ** More on the scores *)

Lemma Forall2_In_l {A B : Type} (R : A -> B -> Prop) (l : list A)
    (l' : list B) (a : A) :
  Forall2 R l l' -> In a l -> exists b, In b l' /\ R a b.
Proof.
  induction 1 as [|a' b l l' Hab _ IH]; simpl; [tauto|].
  intros [<- | Hin]; [eauto|].
  destruct (IH Hin) as [b' [Hb' HR]]. eauto.
Qed.

Lemma scored_row (now : datetime) (restaurants : list Restaurant.t)
    (history : History) (date : datetime) (scored : list Scored.t)
    (s : Scored.t) :
  calculate_scores now restaurants history date = Ok scored ->
  In s scored ->
  In (Scored.row s) restaurants
  /\ scored_as now history date (Scored.row s) s.
Proof.
  intros E Hin. apply calculate_scores_rows in E.
  destruct (Forall2_In_r _ _ _ _ E Hin) as (r & Hr & Hs).
  assert (Hrow : Scored.row s = r) by (destruct Hs; assumption).
  rewrite Hrow. auto.
Qed.

Lemma budget_column_unit (thursday : bool) (stats : MonthlyStats)
    (r : Restaurant.t) :
  0 <= Restaurant.price r <= 40 ->
  (0 <= budget_column thursday stats r <= 1)%Q.
Proof.
  intros [Hlo Hhi].
  assert (Hp : (0 <= inject_Z (Restaurant.price r) <= 40)%Q).
  { split; [change 0%Q with (inject_Z 0) | change 40%Q with (inject_Z 40)];
      rewrite <- Zle_Qle; assumption. }
  unfold budget_column, Qdiv. change (/ 40)%Q with (1 # 40)%Q.
  destruct thursday; [split; discriminate|].
  destruct (Qltb 25 _); [split; lra|].
  destruct (Qltb _ 20); split; try lra; discriminate.
Qed.

(** X10.  For a restaurant priced from 0 to 40 whose last visit is not dated after
    the current day, the three scores lie between 0 and 1. *)
Theorem scores_in_unit_interval :
  forall (now : datetime) (restaurants : list Restaurant.t)
         (history : History) (date : datetime) (scored : list Scored.t)
         (s : Scored.t),
    calculate_scores now restaurants history date = Ok scored ->
    In s scored ->
    0 <= Scored.days_since_visit s ->
    0 <= Restaurant.price (Scored.row s) <= 40 ->
    (0 <= Scored.recency_score s <= 1)%Q
    /\ (0 <= Scored.budget_score s <= 1)%Q
    /\ (0 <= Scored.final_score s <= 1)%Q.
Proof.
  intros now restaurants history date scored s E Hin Hd Hp.
  destruct (scored_row _ _ _ _ _ _ E Hin) as (_ & _ & _ & Hrec & Hb & Hf).
  pose proof (recency_of_days_lower _ Hd) as Hr0.
  pose proof (recency_of_days_upper (Scored.days_since_visit s)) as Hr1.
  pose proof (budget_column_unit (is_thursday date)
                (get_monthly_stats now history) _ Hp) as Hbu.
  rewrite <- Hrec in Hr0, Hr1. rewrite <- Hb in Hbu.
  split; [auto|]. split; [exact Hbu|].
  rewrite Hf. unfold final_column. destruct (is_thursday date); [auto|].
  split; lra.
Qed.

Lemma scores_in_unit_interval_witness :
  exists a b,
    calculate_scores Sample.sunday [Sample.A; Sample.B] Sample.all_recent
      Sample.sunday = Ok [a; b]
    /\ (0 <= Scored.final_score a <= 1)%Q.
Proof.
  destruct (calculate_scores Sample.sunday [Sample.A; Sample.B]
              Sample.all_recent Sample.sunday) as [scored|e] eqn:E;
    [|discriminate E].
  vm_compute in E. injection E as <-.
  do 2 eexists. split; [reflexivity|].
  eapply (scores_in_unit_interval Sample.sunday [Sample.A; Sample.B]
            Sample.all_recent Sample.sunday).
  - vm_compute. reflexivity.
  - left. reflexivity.
  - simpl. lia.
  - simpl. lia.
Defined.

(** X11.  On Thursday the rows rank by the days since the last visit alone: a row
    visited no later than another scores at least as high, whatever the two
    prices. *)
Theorem thursday_ranks_by_recency :
  forall (now : datetime) (restaurants : list Restaurant.t)
         (history : History) (date : datetime) (scored : list Scored.t)
         (a b : Scored.t),
    calculate_scores now restaurants history date = Ok scored ->
    In a scored -> In b scored ->
    is_thursday date = true ->
    Scored.days_since_visit a <= Scored.days_since_visit b ->
    (Scored.final_score a <= Scored.final_score b)%Q.
Proof.
  intros now restaurants history date scored a b E Ha Hb Hthu Hd.
  destruct (scored_row _ _ _ _ _ _ E Ha) as (_ & _ & _ & Hra & _ & Hfa).
  destruct (scored_row _ _ _ _ _ _ E Hb) as (_ & _ & _ & Hrb & _ & Hfb).
  rewrite Hfa, Hfb, Hthu, Hra, Hrb. simpl.
  apply recency_of_days_monotone. exact Hd.
Qed.

Lemma thursday_ranks_by_recency_witness :
  exists a b,
    calculate_scores Sample.sunday [Sample.B; Sample.A] Sample.all_recent
      Sample.thursday = Ok [a; b]
    /\ (Scored.final_score a <= Scored.final_score b)%Q.
Proof.
  destruct (calculate_scores Sample.sunday [Sample.B; Sample.A]
              Sample.all_recent Sample.thursday) as [scored|e] eqn:E;
    [|discriminate E].
  vm_compute in E. injection E as <-.
  do 2 eexists. split; [reflexivity|].
  eapply (thursday_ranks_by_recency Sample.sunday [Sample.B; Sample.A]
            Sample.all_recent Sample.thursday).
  - vm_compute. reflexivity.
  - left. reflexivity.
  - right. left. reflexivity.
  - reflexivity.
  - simpl. lia.
Defined.

(** X12.  Off Thursday, between two rows the one visited no later loses or ties
    when the budget does not favour it: over budget (displayed average above
    25) when it is not the cheaper, under budget (below 20) when it is not
    the pricier, and on track (20 to 25) whatever the prices. *)
Theorem ranking_off_thursday :
  forall (now : datetime) (restaurants : list Restaurant.t)
         (history : History) (date : datetime) (scored : list Scored.t)
         (a b : Scored.t),
    calculate_scores now restaurants history date = Ok scored ->
    In a scored -> In b scored ->
    is_thursday date = false ->
    Scored.days_since_visit a <= Scored.days_since_visit b ->
    let avg := current_average (get_monthly_stats now history) in
    let price_a := Restaurant.price (Scored.row a) in
    let price_b := Restaurant.price (Scored.row b) in
    ((25 < avg)%Q -> price_b <= price_a ->
     (Scored.final_score a <= Scored.final_score b)%Q)
    /\ ((avg < 20)%Q -> price_a <= price_b ->
        (Scored.final_score a <= Scored.final_score b)%Q)
    /\ ((20 <= avg <= 25)%Q ->
        (Scored.final_score a <= Scored.final_score b)%Q).
Proof.
  intros now restaurants history date scored a b E Ha Hb Hthu Hd avg
    price_a price_b.
  destruct (scored_row _ _ _ _ _ _ E Ha) as (_ & _ & _ & Hra & Hba & Hfa).
  destruct (scored_row _ _ _ _ _ _ E Hb) as (_ & _ & _ & Hrb & Hbb & Hfb).
  pose proof (recency_of_days_monotone _ _ Hd) as Hrec.
  rewrite Hfa, Hfb, Hba, Hbb, Hra, Hrb, Hthu.
  unfold final_column, budget_column. fold avg price_a price_b.
  assert (Hq : forall x y : Z, x <= y ->
                               (inject_Z x / 40 <= inject_Z y / 40)%Q).
  { intros x y Hxy. unfold Qdiv. apply Qmult_le_compat_r; [|discriminate].
    rewrite <- Zle_Qle. exact Hxy. }
  unfold Qdiv in *. change (/ 40)%Q with (1 # 40)%Q in *.
  destruct (Qltb 25 avg) eqn:E25;
    [apply Qltb_true in E25
    | apply Qltb_false in E25;
      destruct (Qltb avg 20) eqn:E20;
      [apply Qltb_true in E20 | apply Qltb_false in E20]].
  - split; [|split]; intros; try lra.
    pose proof (Hq price_b price_a ltac:(assumption)).
    unfold price_a, price_b in *. lra.
  - split; [|split]; intros; try lra.
    pose proof (Hq price_a price_b ltac:(assumption)).
    unfold price_a, price_b in *. lra.
  - split; [|split]; intros; lra.
Qed.

Lemma ranking_off_thursday_witness :
  exists a b,
    calculate_scores Sample.sunday [Sample.B; Sample.A] Sample.over_budget
      Sample.sunday = Ok [a; b]
    /\ (Scored.final_score a <= Scored.final_score b)%Q.
Proof.
  destruct (calculate_scores Sample.sunday [Sample.B; Sample.A]
              Sample.over_budget Sample.sunday) as [scored|e] eqn:E;
    [|discriminate E].
  pose proof E as E'. vm_compute in E'. injection E' as E'. subst scored.
  do 2 eexists. split; [reflexivity|].
  refine (proj1 (ranking_off_thursday _ _ _ _ _ _ _ E (or_introl eq_refl)
                   (or_intror (or_introl eq_refl)) eq_refl _) _ _).
  - simpl. lia.
  - reflexivity.
  - simpl. lia.
Defined.

(** X13.  The day count of a restaurant is 999 when no visit carries its name, and
    visits to other restaurants never change it. *)
Theorem days_since_visit_by_name :
  forall (now : datetime) (name : string),
    (forall history,
        (forall v, In v (visits history) -> Visit.restaurant v <> name) ->
        get_days_since_visit now name history = Ok 999)
    /\ (forall before after v,
           Visit.restaurant v <> name ->
           get_days_since_visit now name (mk_history (before ++ v :: after))
           = get_days_since_visit now name (mk_history (before ++ after))).
Proof.
  intros now name. split.
  - intros history Hno. unfold get_days_since_visit.
    destruct (filter _ (visits history)) as [|v vs] eqn:E; [reflexivity|].
    assert (Hin : In v (filter
                          (fun v => String.eqb (Visit.restaurant v) name)
                          (visits history)))
      by (rewrite E; left; reflexivity).
    apply filter_In in Hin. destruct Hin as [Hin Hv].
    apply String.eqb_eq in Hv. apply Hno in Hin. contradiction.
  - intros before after v Hv. unfold get_days_since_visit. cbn [visits].
    rewrite !filter_app. cbn [filter].
    apply String.eqb_neq in Hv. rewrite Hv. reflexivity.
Qed.

Lemma days_since_visit_by_name_witness :
  get_days_since_visit Sample.sunday "B" Sample.over_budget = Ok 999.
Proof.
  apply (days_since_visit_by_name Sample.sunday "B").
  intros v [<- | [<- | []]]; discriminate.
Defined.

(** ** More on the recommendation *)

Lemma scored_pool_available (now : datetime) (restaurants : list Restaurant.t)
    (history : History) (date : datetime) (r : Restaurant.t) :
  In r (scored_pool now restaurants history date) ->
  In r (get_available_restaurants restaurants date).
Proof.
  unfold scored_pool.
  destruct (exclude_recent _ _) as [|r0 rs0] eqn:E; [auto|].
  rewrite <- E. unfold exclude_recent. intros H. apply filter_In in H. tauto.
Qed.

Lemma apply_raise {A B : Type} (f : A -> exn B) (l : list A) (e : error) :
  apply f l = Raise e -> exists a, In a l /\ f a = Raise e.
Proof.
  induction l as [|a l IH]; simpl; [discriminate|].
  destruct (f a) as [b|e'] eqn:Ea; simpl.
  - destruct (apply f l) as [bs|e'']; simpl; [discriminate|].
    intros E. injection E as ->. destruct (IH eq_refl) as [a' [Hin Ha']].
    eauto.
  - intros E. injection E as ->. eauto.
Qed.

Lemma calculate_scores_raise (now : datetime)
    (restaurants : list Restaurant.t) (history : History) (date : datetime)
    (e : error) :
  calculate_scores now restaurants history date = Raise e ->
  e = ValueError /\ dates_valid history = false.
Proof.
  intros E. split.
  - unfold calculate_scores in E. apply apply_raise in E.
    destruct E as (r & _ & Hr). unfold get_days_since_visit in Hr.
    destruct (filter _ (visits history)); [discriminate|].
    destruct (strptime _); simpl in Hr; [discriminate|].
    injection Hr as <-. reflexivity.
  - destruct (dates_valid history) eqn:Hv; [|reflexivity].
    destruct (calculate_scores_total now restaurants history date Hv)
      as [scored [E' _]].
    congruence.
Qed.

(** What a call returns on a work day with an available restaurant, by the
    outcome of the scoring. *)
Lemma get_recommendation_cases `{Sorter} (now : datetime)
    (restaurants : list Restaurant.t) (history : History)
    (date : option datetime) :
  is_work_day (date_or_now date now) = true ->
  get_available_restaurants restaurants (date_or_now date now) <> [] ->
  (exists scored top rest,
      calculate_scores now
        (scored_pool now restaurants history (date_or_now date now))
        history (date_or_now date now) = Ok scored
      /\ sort_values scored = top :: rest
      /\ get_recommendation now restaurants history date
         = Ok (Some (to_recommendation top)))
  \/ (calculate_scores now
        (scored_pool now restaurants history (date_or_now date now))
        history (date_or_now date now) = Raise ValueError
      /\ dates_valid history = false
      /\ get_recommendation now restaurants history date = Raise ValueError).
Proof.
  intros Hw Ha.
  rewrite (get_recommendation_unfold now restaurants history date Hw Ha).
  destruct (calculate_scores _ _ _ _) as [scored|e] eqn:E.
  - left. simpl.
    assert (Hne : scored <> []).
    { eapply Forall2_nonempty; [apply calculate_scores_rows; exact E|].
      apply scored_pool_nonempty, Ha. }
    destruct (sort_values_top scored Hne) as (top & rest & Es & _).
    exists scored, top, rest. rewrite Es. auto.
  - right. destruct (calculate_scores_raise _ _ _ _ _ E) as [-> Hv]. auto.
Qed.

(** X14.  A recommendation always is a restaurant of the table that is available
    on the day asked for (a work day): its name, area, item, price and
    travel time are those of one such row. *)
Theorem recommendation_from_table :
  forall (S : Sorter) (now : datetime) (restaurants : list Restaurant.t)
         (history : History) (date : option datetime)
         (rec : Recommendation.t),
    get_recommendation now restaurants history date = Ok (Some rec) ->
    is_work_day (date_or_now date now) = true
    /\ exists r,
        In r restaurants
        /\ In r (get_available_restaurants restaurants (date_or_now date now))
        /\ Recommendation.name rec = Restaurant.name r
        /\ Recommendation.area rec = Restaurant.area r
        /\ Recommendation.item rec = Restaurant.item r
        /\ Recommendation.price rec = Restaurant.price r
        /\ Recommendation.travel_time rec = Restaurant.travel_time r.
Proof.
  intros S now restaurants history date rec E.
  destruct (is_work_day (date_or_now date now)) eqn:Hw.
  2:{ rewrite get_recommendation_none in E by auto. discriminate. }
  destruct (get_available_restaurants restaurants (date_or_now date now))
    as [|r0 rs0] eqn:Ha.
  { rewrite get_recommendation_none in E by auto. discriminate. }
  split; [reflexivity|].
  destruct (get_recommendation_cases now restaurants history date Hw)
    as [(scored & top & rest & Es & Et & Er) | (_ & _ & Er)];
    [rewrite Ha; discriminate | | congruence].
  rewrite Er in E. injection E as <-.
  assert (Hin : In top scored).
  { eapply Permutation_in; [apply sort_values_perm|]. rewrite Et. left.
    reflexivity. }
  destruct (scored_row _ _ _ _ _ _ Es Hin) as [Hrow _].
  apply scored_pool_available in Hrow.
  exists (Scored.row top). rewrite <- Ha.
  split; [apply In_available in Hrow; tauto|].
  split; [exact Hrow|]. simpl. auto.
Qed.

Lemma recommendation_from_table_witness :
  is_work_day (date_or_now (Some Sample.sunday) Sample.sunday) = true
  /\ exists r,
      In r [Sample.A; Sample.B]
      /\ In r (get_available_restaurants [Sample.A; Sample.B]
                 (date_or_now (Some Sample.sunday) Sample.sunday))
      /\ "A"%string = Restaurant.name r
      /\ "North"%string = Restaurant.area r
      /\ "Kabsa"%string = Restaurant.item r
      /\ 15 = Restaurant.price r
      /\ 10 = Restaurant.travel_time r.
Proof.
  apply (recommendation_from_table insertion_sorter Sample.sunday
           [Sample.A; Sample.B] Sample.all_recent (Some Sample.sunday)
           (Recommendation.mk "A" "North" "Kabsa" 15 10 3 (10 # 100)
              (50 # 100) (30 # 100))).
  vm_compute. reflexivity.
Defined.

(** X15.  The only exception a call can end in is the ValueError of a visit date
    that does not read: the first row of the sorted frame always exists. *)
Theorem recommendation_raises_only_on_bad_date :
  forall (S : Sorter) (now : datetime) (restaurants : list Restaurant.t)
         (history : History) (date : option datetime) (e : error),
    get_recommendation now restaurants history date = Raise e ->
    e = ValueError
    /\ dates_valid history = false
    /\ is_work_day (date_or_now date now) = true
    /\ get_available_restaurants restaurants (date_or_now date now) <> [].
Proof.
  intros S now restaurants history date e E.
  destruct (is_work_day (date_or_now date now)) eqn:Hw.
  2:{ rewrite get_recommendation_none in E by auto. discriminate. }
  destruct (get_available_restaurants restaurants (date_or_now date now))
    as [|r0 rs0] eqn:Ha.
  { rewrite get_recommendation_none in E by auto. discriminate. }
  destruct (get_recommendation_cases now restaurants history date Hw)
    as [(scored & top & rest & _ & _ & Er) | (_ & Hv & Er)];
    [rewrite Ha; discriminate | congruence |].
  rewrite Er in E. injection E as <-.
  repeat split; auto. discriminate.
Qed.

Lemma recommendation_raises_only_on_bad_date_witness :
  dates_valid (mk_history [Visit.mk "10/03/2024" "A" 15 "Kabsa"]) = false.
Proof.
  apply (recommendation_raises_only_on_bad_date insertion_sorter
           Sample.sunday [Sample.A]
           (mk_history [Visit.mk "10/03/2024" "A" 15 "Kabsa"])
           (Some Sample.sunday) ValueError).
  reflexivity.
Defined.

Lemma never_visited_days (now : datetime) (name : string)
    (history : History) :
  (forall v, In v (visits history) -> Visit.restaurant v <> name) ->
  get_days_since_visit now name history = Ok 999.
Proof.
  intros Hno. unfold get_days_since_visit.
  destruct (filter _ (visits history)) as [|v vs] eqn:E; [reflexivity|].
  assert (Hin : In v (filter
                        (fun v => String.eqb (Visit.restaurant v) name)
                        (visits history)))
    by (rewrite E; left; reflexivity).
  apply filter_In in Hin. destruct Hin as [Hin Hv].
  apply String.eqb_eq in Hv. apply Hno in Hin. contradiction.
Qed.

Lemma isin_recent_visited (now : datetime) (history : History) (days : Z)
    (name : string) :
  isin (get_recent_restaurant_names now history days) name = true ->
  exists v, In v (visits history) /\ Visit.restaurant v = name.
Proof.
  unfold isin, get_recent_restaurant_names, get_recent_visits.
  intros H. apply existsb_exists in H. destruct H as (x & Hx & Hn).
  apply String.eqb_eq in Hn. subst x.
  apply in_map_iff in Hx. destruct Hx as (v & Hv & Hin).
  apply filter_In in Hin. exists v. tauto.
Qed.

(** X16.  Among restaurants that were never visited the price decides.  On a work
    day other than Thursday, when no visit on record names an available
    restaurant, the recommendation has the sentinel day count 999 and is a
    most expensive available restaurant while under budget (displayed
    average below 20, as with no visit this month) and a cheapest one while
    over budget (above 25). *)
Theorem untried_restaurants_rank_by_price :
  forall (S : Sorter) (now : datetime) (restaurants : list Restaurant.t)
         (history : History) (date : option datetime),
    let day := date_or_now date now in
    let available := get_available_restaurants restaurants day in
    let avg := current_average (get_monthly_stats now history) in
    is_work_day day = true ->
    is_thursday day = false ->
    available <> [] ->
    (forall v r, In v (visits history) -> In r available ->
                 Visit.restaurant v <> Restaurant.name r) ->
    exists rec,
      get_recommendation now restaurants history date = Ok (Some rec)
      /\ Recommendation.days_since_visit rec = 999
      /\ ((avg < 20)%Q ->
          forall r, In r available ->
                    Restaurant.price r <= Recommendation.price rec)
      /\ ((25 < avg)%Q ->
          forall r, In r available ->
                    Recommendation.price rec <= Restaurant.price r).
Proof.
  intros S now restaurants history date day available avg Hw Hthu Ha Hno.
  assert (Hpool : scored_pool now restaurants history day = available).
  { unfold scored_pool. fold available.
    assert (Hall : exclude_recent (get_recent_restaurant_names now history 7)
                     available = available).
    { apply filter_all. intros r Hr. apply negb_true_iff.
      destruct (isin _ _) eqn:Ei; [|reflexivity].
      apply isin_recent_visited in Ei. destruct Ei as (v & Hv & Hn).
      exfalso. exact (Hno v r Hv Hr Hn). }
    rewrite Hall. destruct available; reflexivity. }
  assert (Hdays : forall r, In r available ->
                            get_days_since_visit now (Restaurant.name r)
                              history = Ok 999).
  { intros r Hr. apply never_visited_days. intros v Hv. eauto. }
  destruct (get_recommendation_cases now restaurants history date Hw Ha)
    as [(scored & top & rest & Es & Et & Er) | (Es & _)].
  2:{ fold day in Es. rewrite Hpool in Es. unfold calculate_scores in Es.
      apply apply_raise in Es. destruct Es as (r & Hr & Er).
      rewrite (Hdays r Hr) in Er. discriminate. }
  fold day in Es. rewrite Hpool in Es.
  assert (Hrows : forall s, In s scored ->
                            In (Scored.row s) available
                            /\ Scored.final_score s
                               = final_column false (recency_of_days 999)
                                   (budget_column false
                                      (get_monthly_stats now history)
                                      (Scored.row s))
                            /\ Scored.days_since_visit s = 999).
  { intros s Hs.
    destruct (scored_row _ _ _ _ _ _ Es Hs)
      as (Hin & _ & Hd & Hrec & Hb & Hf).
    rewrite (Hdays _ Hin) in Hd. injection Hd as Hd.
    rewrite Hf, Hb, Hrec, <- Hd, Hthu. auto. }
  assert (Htop : In top scored).
  { eapply Permutation_in; [apply sort_values_perm|]. rewrite Et. left.
    reflexivity. }
  assert (Hmax : forall s, In s scored -> score_ge top s).
  { intros s Hs.
    destruct (sort_values_top scored) as (top' & rest' & Et' & _ & Hm).
    - intros ->. contradiction.
    - rewrite Et in Et'. injection Et' as <- _. apply Hm. exact Hs. }
  destruct (Hrows top Htop) as (_ & Hft & Hdt).
  exists (to_recommendation top). split; [exact Er|]. split; [exact Hdt|].
  assert (Hcmp : forall r, In r available ->
                   (final_column false (recency_of_days 999)
                      (budget_column false (get_monthly_stats now history) r)
                    <= final_column false (recency_of_days 999)
                         (budget_column false (get_monthly_stats now history)
                            (Scored.row top)))%Q).
  { intros r Hr. apply calculate_scores_rows in Es.
    destruct (Forall2_In_l _ _ _ _ Es Hr) as (s & Hs & Hrs & _).
    pose proof (Hmax s Hs) as Hge. unfold score_ge in Hge.
    destruct (Hrows s Hs) as (_ & Hfs & _).
    rewrite Hfs, Hft, Hrs in Hge. exact Hge. }
  unfold final_column, budget_column in Hcmp. fold avg in Hcmp.
  unfold Qdiv in Hcmp. change (/ 40)%Q with (1 # 40)%Q in Hcmp.
  cbn [to_recommendation Recommendation.price].
  split; intros Havg r Hr; specialize (Hcmp r Hr).
  - assert (E25 : Qltb 25 avg = false) by (apply Qltb_false; lra).
    assert (E20 : Qltb avg 20 = true) by (apply Qltb_true; exact Havg).
    rewrite E25, E20 in Hcmp. rewrite Zle_Qle. lra.
  - assert (E25 : Qltb 25 avg = true) by (apply Qltb_true; exact Havg).
    rewrite E25 in Hcmp. rewrite Zle_Qle. lra.
Qed.

Lemma untried_restaurants_rank_by_price_witness :
  exists rec,
    get_recommendation Sample.sunday [Sample.A; Sample.B] Sample.no_visits
      (Some Sample.sunday) = Ok (Some rec)
    /\ Recommendation.days_since_visit rec = 999
    /\ Restaurant.price Sample.A <= Recommendation.price rec
    /\ Restaurant.price Sample.B <= Recommendation.price rec.
Proof.
  destruct (untried_restaurants_rank_by_price insertion_sorter Sample.sunday
              [Sample.A; Sample.B] Sample.no_visits (Some Sample.sunday))
    as (rec & E & Hd & Hunder & _).
  - reflexivity.
  - reflexivity.
  - vm_compute. discriminate.
  - intros v r [].
  - exists rec. split; [exact E|]. split; [exact Hd|].
    split; apply Hunder; try reflexivity; [left | right; left]; reflexivity.
Defined.

(** ** The list of alternatives *)

Lemma round_half_even_monotone (a b : Q) :
  (a <= b)%Q -> round_half_even a <= round_half_even b.
Proof.
  intros Hab. destruct (Qlt_le_dec a b) as [Hlt | Hge].
  - destruct (Z_le_gt_dec (round_half_even a) (round_half_even b))
      as [Hle | Hgt]; [exact Hle | exfalso].
    pose proof (round_half_even_near a) as Ha.
    pose proof (round_half_even_near b) as Hb.
    apply Qabs_Qle_condition in Ha. apply Qabs_Qle_condition in Hb.
    assert (H1 : (inject_Z (round_half_even b + 1)
                  <= inject_Z (round_half_even a))%Q)
      by (rewrite <- Zle_Qle; lia).
    rewrite inject_Z_plus in H1. change (inject_Z 1) with 1%Q in H1. lra.
  - rewrite (round_half_even_comp a b); [lia|]. apply Qle_antisym; assumption.
Qed.

Lemma py_round_monotone (a b : Q) (ndigits : nat) :
  (a <= b)%Q -> (py_round a ndigits <= py_round b ndigits)%Q.
Proof.
  intros Hab. unfold py_round.
  assert (Hs : (0 < inject_Z (10 ^ Z.of_nat ndigits))%Q).
  { change 0%Q with (inject_Z 0). rewrite <- Zlt_Qlt.
    apply Z.pow_pos_nonneg; lia. }
  set (scale := inject_Z (10 ^ Z.of_nat ndigits)) in *.
  unfold Qdiv. apply Qmult_le_compat_r.
  - rewrite <- Zle_Qle. apply round_half_even_monotone.
    apply Qmult_le_compat_r; [exact Hab | apply Qlt_le_weak, Hs].
  - apply Qlt_le_weak, Qinv_lt_0_compat, Hs.
Qed.

Lemma In_firstn {A : Type} (n : nat) (l : list A) (x : A) :
  In x (firstn n l) -> In x l.
Proof.
  revert l. induction n as [|n IH]; intros [|y l]; simpl; try tauto.
  intros [H | H]; auto.
Qed.

Lemma length_filter_le {A : Type} (f : A -> bool) (l : list A) :
  (List.length (filter f l) <= List.length l)%nat.
Proof.
  induction l as [|x l IH]; simpl; [lia|]. destruct (f x); simpl; lia.
Qed.

Lemma StronglySorted_firstn {A : Type} (R : A -> A -> Prop) (n : nat)
    (l : list A) :
  StronglySorted R l -> StronglySorted R (firstn n l).
Proof.
  revert l. induction n as [|n IH]; intros l Hs; [constructor|].
  destruct l as [|x l]; [constructor|]. simpl.
  apply StronglySorted_inv in Hs. destruct Hs as [Hs Hall].
  constructor; [apply IH, Hs|].
  rewrite Forall_forall in *. intros y Hy. apply Hall.
  eapply In_firstn. exact Hy.
Qed.

Lemma StronglySorted_map {A B : Type} (R : A -> A -> Prop)
    (R' : B -> B -> Prop) (f : A -> B) (l : list A) :
  (forall x y, R x y -> R' (f x) (f y)) ->
  StronglySorted R l -> StronglySorted R' (map f l).
Proof.
  intros Hf. induction 1 as [|x l Hs IH Hall]; simpl; constructor; auto.
  rewrite Forall_forall in *. intros y Hy.
  apply in_map_iff in Hy. destruct Hy as (z & <- & Hz). auto.
Qed.

Lemma get_all_recommendations_none `{Sorter} (now : datetime)
    (restaurants : list Restaurant.t) (history : History)
    (date : option datetime) (limit : nat) :
  is_work_day (date_or_now date now) = false
  \/ get_available_restaurants restaurants (date_or_now date now) = [] ->
  get_all_recommendations now restaurants history date limit = Ok [].
Proof.
  unfold get_all_recommendations. intros [Hw|Ha].
  - rewrite Hw. reflexivity.
  - rewrite Ha. destruct (negb _); reflexivity.
Qed.

Lemma get_all_recommendations_unfold `{Sorter} (now : datetime)
    (restaurants : list Restaurant.t) (history : History)
    (date : option datetime) (limit : nat) :
  is_work_day (date_or_now date now) = true ->
  get_available_restaurants restaurants (date_or_now date now) <> [] ->
  get_all_recommendations now restaurants history date limit
  = (scored <- calculate_scores now
                 (scored_pool now restaurants history (date_or_now date now))
                 history (date_or_now date now) ;;
     Ok (map to_alternative (firstn limit (sort_values scored)))).
Proof.
  unfold get_all_recommendations, scored_pool. intros Hw Ha. rewrite Hw.
  simpl.
  destruct (get_available_restaurants restaurants (date_or_now date now))
    as [|r rs] eqn:Ea; [congruence|].
  destruct (exclude_recent _ (r :: rs)); reflexivity.
Qed.

(** X18.  The list of alternatives starts with the recommendation: asked for at
    least one entry, [get_all_recommendations] returns the empty list when
    [get_recommendation] returns the absent result, raises when it raises,
    and otherwise returns a list whose first entry is the recommended
    restaurant, with the same day count and displayed final score. *)
Theorem alternatives_start_with_recommendation :
  forall (S : Sorter) (now : datetime) (restaurants : list Restaurant.t)
         (history : History) (date : option datetime) (limit : nat),
    (0 < limit)%nat ->
    match get_recommendation now restaurants history date with
    | Ok None =>
        get_all_recommendations now restaurants history date limit = Ok []
    | Ok (Some rec) =>
        exists alt rest,
          get_all_recommendations now restaurants history date limit
          = Ok (alt :: rest)
          /\ Alternative.name alt = Recommendation.name rec
          /\ Alternative.area alt = Recommendation.area rec
          /\ Alternative.item alt = Recommendation.item rec
          /\ Alternative.price alt = Recommendation.price rec
          /\ Alternative.travel_time alt = Recommendation.travel_time rec
          /\ Alternative.days_since_visit alt
             = Recommendation.days_since_visit rec
          /\ Alternative.final_score alt = Recommendation.final_score rec
    | Raise e =>
        get_all_recommendations now restaurants history date limit = Raise e
    end.
Proof.
  intros S now restaurants history date limit Hl.
  destruct (is_work_day (date_or_now date now)) eqn:Hw.
  2:{ rewrite get_recommendation_none by auto.
      apply get_all_recommendations_none. auto. }
  destruct (get_available_restaurants restaurants (date_or_now date now))
    as [|r0 rs0] eqn:Ha.
  { rewrite get_recommendation_none by auto.
    apply get_all_recommendations_none. auto. }
  assert (Hne : get_available_restaurants restaurants (date_or_now date now)
                <> []) by (rewrite Ha; discriminate).
  rewrite (get_all_recommendations_unfold now restaurants history date limit
             Hw Hne).
  destruct (get_recommendation_cases now restaurants history date Hw Hne)
    as [(scored & top & rest & Es & Et & Er) | (Es & _ & Er)];
    rewrite Er, Es; simpl; [|reflexivity].
  rewrite Et. destruct limit as [|limit]; [lia|]. simpl.
  do 2 eexists. split; [reflexivity|]. simpl. repeat split.
Qed.

Lemma alternatives_start_with_recommendation_witness :
  exists alt rest,
    get_all_recommendations Sample.sunday [Sample.A; Sample.B]
      Sample.all_recent (Some Sample.sunday) 5 = Ok (alt :: rest)
    /\ Alternative.name alt = "A"%string.
Proof.
  pose proof (alternatives_start_with_recommendation insertion_sorter
                Sample.sunday [Sample.A; Sample.B] Sample.all_recent
                (Some Sample.sunday) 5 ltac:(lia)) as W.
  change (get_recommendation Sample.sunday [Sample.A; Sample.B]
            Sample.all_recent (Some Sample.sunday))
    with (Ok (Some (Recommendation.mk "A" "North" "Kabsa" 15 10 3
                      (py_round (1 # 10) 2) (py_round (1 # 2) 2)
                      (py_round (3 # 10) 2)))) in W.
  destruct W as (alt & rest & E & Hn & _).
  exists alt, rest. split; [exact E | exact Hn].
Defined.

(** X19.  The list of alternatives has at most [limit] entries and at most one per
    restaurant of the table; each entry is a restaurant of the table
    available on the day asked for; and the displayed final scores run in
    descending order. *)
Theorem alternatives_bounded_and_ordered :
  forall (S : Sorter) (now : datetime) (restaurants : list Restaurant.t)
         (history : History) (date : option datetime) (limit : nat)
         (alternatives : list Alternative.t),
    get_all_recommendations now restaurants history date limit
    = Ok alternatives ->
    (List.length alternatives <= limit)%nat
    /\ (List.length alternatives <= List.length restaurants)%nat
    /\ (forall alt, In alt alternatives ->
          exists r,
            In r restaurants
            /\ In r (get_available_restaurants restaurants
                       (date_or_now date now))
            /\ Alternative.name alt = Restaurant.name r
            /\ Alternative.price alt = Restaurant.price r)
    /\ StronglySorted
         (fun a b =>
            (Alternative.final_score b <= Alternative.final_score a)%Q)
         alternatives.
Proof.
  intros S now restaurants history date limit alternatives E.
  destruct (is_work_day (date_or_now date now)) eqn:Hw.
  2:{ rewrite get_all_recommendations_none in E by auto.
      injection E as <-. simpl.
      split; [lia|]. split; [lia|]. split; [intros alt []|constructor]. }
  destruct (get_available_restaurants restaurants (date_or_now date now))
    as [|r0 rs0] eqn:Ha.
  { rewrite get_all_recommendations_none in E by auto.
    injection E as <-. simpl.
    split; [lia|]. split; [lia|]. split; [intros alt []|constructor]. }
  rewrite get_all_recommendations_unfold in E
    by (auto; rewrite Ha; discriminate).
  destruct (calculate_scores _ _ _ _) as [scored|e] eqn:Es;
    simpl in E; [|discriminate].
  injection E as <-. rewrite <- Ha.
  pose proof (sort_values_perm scored) as Hp.
  assert (Hlen : List.length scored
                 = List.length (scored_pool now restaurants history
                                  (date_or_now date now))).
  { apply calculate_scores_rows, Forall2_rows in Es. rewrite <- Es.
    symmetry. apply length_map. }
  assert (Hpool : (List.length (scored_pool now restaurants history
                                  (date_or_now date now))
                   <= List.length restaurants)%nat).
  { unfold scored_pool, exclude_recent, get_available_restaurants.
    destruct (String.eqb _ _); [simpl; lia|].
    destruct (filter _ (filter _ restaurants)) as [|x xs] eqn:Ef.
    - apply length_filter_le.
    - rewrite <- Ef.
      etransitivity; [apply length_filter_le | apply length_filter_le]. }
  split; [rewrite length_map, length_firstn; lia|].
  split.
  { rewrite length_map, length_firstn.
    rewrite (Permutation_length Hp). lia. }
  split.
  - intros alt Hin. apply in_map_iff in Hin.
    destruct Hin as (s & <- & Hs). apply In_firstn in Hs.
    apply (Permutation_in _ Hp) in Hs.
    destruct (scored_row _ _ _ _ _ _ Es Hs) as [Hrow _].
    apply scored_pool_available in Hrow.
    exists (Scored.row s). split; [|split; [exact Hrow|split; reflexivity]].
    unfold get_available_restaurants in Hrow.
    destruct (String.eqb _ _); [contradiction|].
    apply filter_In in Hrow. tauto.
  - apply (StronglySorted_map score_ge).
    + intros x y Hxy. simpl. apply py_round_monotone. exact Hxy.
    + apply StronglySorted_firstn. apply sort_values_desc.
Qed.

Lemma alternatives_bounded_and_ordered_witness :
  exists alternatives,
    get_all_recommendations Sample.sunday [Sample.A; Sample.B; Sample.C]
      Sample.no_visits (Some Sample.monday) 2 = Ok alternatives
    /\ (List.length alternatives <= 2)%nat.
Proof.
  destruct (get_all_recommendations Sample.sunday
              [Sample.A; Sample.B; Sample.C] Sample.no_visits
              (Some Sample.monday) 2) as [alternatives|e] eqn:E.
  - exists alternatives. split; [reflexivity|].
    apply (alternatives_bounded_and_ordered insertion_sorter Sample.sunday
             [Sample.A; Sample.B; Sample.C] Sample.no_visits
             (Some Sample.monday) 2 alternatives E).
  - vm_compute in E. discriminate E.
Defined.

(** ** More on the explanation *)

(** X20.  An explanation is at most one clause on the last visit followed by at
    most one more clause.  The first is chosen by the day count: "never
    been here" from 999 days on, the long form above 14 days, the short form
    above 7, and none up to 7 days.  On Thursday the second is always the
    Thursday message. *)
Theorem explanation_clauses :
  forall (now : datetime) (recommendation : Recommendation.t)
         (history : History) (date : option datetime),
    let days := Recommendation.days_since_visit recommendation in
    let parts := explain_parts now recommendation history date in
    exists recency rest,
      parts = recency ++ rest
      /\ recency = filter is_recency_clause parts
      /\ (List.length rest <= 1)%nat
      /\ (999 <= days -> recency = [never_been_here])
      /\ (14 < days < 999 -> recency = [days_since_last_visit days])
      /\ (7 < days <= 14 -> recency = [last_visited_ago days])
      /\ (days <= 7 -> recency = [])
      /\ (is_thursday (date_or_now date now) = true ->
          rest = [thursday_no_limit]).
Proof.
  intros now recommendation history date days parts.
  subst parts. unfold explain_parts. fold days.
  set (recency := if 999 <=? days then _ else _).
  assert (Hrec : filter is_recency_clause recency = recency
                 /\ (999 <= days -> recency = [never_been_here])
                 /\ (14 < days < 999 -> recency = [days_since_last_visit days])
                 /\ (7 < days <= 14 -> recency = [last_visited_ago days])
                 /\ (days <= 7 -> recency = [])).
  { subst recency.
    destruct (Z.leb_spec 999 days);
      [|destruct (Z.ltb_spec 14 days); [|destruct (Z.ltb_spec 7 days)]];
      (split; [reflexivity|]); repeat split; intros; try reflexivity; lia. }
  destruct Hrec as (Hfil & Hcases).
  assert (Hshape : forall rest,
             filter is_recency_clause rest = [] ->
             recency = filter is_recency_clause (recency ++ rest)).
  { intros rest Hr. rewrite filter_app, Hfil, Hr, app_nil_r. reflexivity. }
  exists recency.
  destruct (is_thursday (date_or_now date now)); simpl negb; cbv iota.
  - exists [thursday_no_limit].
    split; [reflexivity|]. split; [apply Hshape; reflexivity|].
    split; [simpl; lia|]. repeat split; try tauto.
  - cbv zeta.
    destruct (Qltb 25 _);
      [|destruct (Qltb _ 20 && _); [|destruct (Qle_bool 20 _ && _)]];
      [eexists [_] | eexists [_] | eexists [_] | exists []];
      (split; [rewrite ?app_nil_r; reflexivity|]);
      (split; [first [apply Hshape; reflexivity | symmetry; exact Hfil]|]);
      (split; [simpl; lia|]);
      repeat split; try tauto; discriminate.
Qed.

Lemma render_nonempty (str_int : Z -> string) (str_float : Q -> string)
    (c : Clause) :
  render str_int str_float c <> ""%string.
Proof. destruct c; discriminate. Qed.

Lemma concat_nonempty (sep : string) (l : list string) :
  (forall x, In x l -> x <> ""%string) ->
  String.concat sep l = ""%string -> l = [].
Proof.
  destruct l as [|x l]; [reflexivity|]. intros Hx E. exfalso.
  assert (Hne : x <> ""%string) by (apply Hx; left; reflexivity).
  simpl in E. destruct l; [contradiction|].
  destruct x; [contradiction | discriminate].
Qed.

(** X21.  The explanation is the empty text, however the numbers are printed,
    exactly when the day is not Thursday, the last visit is at most 7 days
    back, the displayed average is below 20 and the price is at most 25. *)
Theorem explanation_empty_iff :
  forall (str_int : Z -> string) (str_float : Q -> string) (now : datetime)
         (recommendation : Recommendation.t) (history : History)
         (date : option datetime),
    explain_recommendation str_int str_float now recommendation history date
    = ""%string
    <-> is_thursday (date_or_now date now) = false
        /\ Recommendation.days_since_visit recommendation <= 7
        /\ (current_average (get_monthly_stats now history) < 20)%Q
        /\ Recommendation.price recommendation <= 25.
Proof.
  intros str_int str_float now recommendation history date.
  unfold explain_recommendation.
  assert (Hparts :
            explain_parts now recommendation history date = []
            <-> is_thursday (date_or_now date now) = false
                /\ Recommendation.days_since_visit recommendation <= 7
                /\ (current_average (get_monthly_stats now history) < 20)%Q
                /\ Recommendation.price recommendation <= 25).
  { unfold explain_parts.
    set (days := Recommendation.days_since_visit recommendation).
    set (price := Recommendation.price recommendation).
    set (avg := current_average (get_monthly_stats now history)).
    set (recency := if 999 <=? days then _ else _).
    assert (Hrec : recency = [] <-> days <= 7).
    { subst recency.
      destruct (Z.leb_spec 999 days);
        [|destruct (Z.ltb_spec 14 days); [|destruct (Z.ltb_spec 7 days)]];
        split; intros H'; try discriminate H'; try reflexivity; lia. }
    assert (Hsnoc : forall c, recency ++ [c] <> [])
      by (intros c H'; apply app_eq_nil in H'; destruct H'; discriminate).
    destruct (is_thursday (date_or_now date now)); simpl negb; cbv iota.
    - split; [intros H'; exfalso; exact (Hsnoc _ H')|].
      intros [H' _]. discriminate H'.
    - cbv zeta.
      destruct (Qltb 25 avg) eqn:E25.
      { apply Qltb_true in E25.
        split; [intros H'; exfalso; exact (Hsnoc _ H')|].
        intros (_ & _ & H' & _). exfalso. lra. }
      apply Qltb_false in E25.
      destruct (Qltb avg 20) eqn:E20.
      + apply Qltb_true in E20.
        assert (Hon : Qle_bool 20 avg = false)
          by (apply Qle_bool_false; exact E20).
        destruct (Z.ltb_spec 25 price); simpl.
        * split; [intros H'; exfalso; exact (Hsnoc _ H')|].
          intros (_ & _ & _ & H'). exfalso. lia.
        * rewrite Hon. simpl. rewrite Hrec. intuition.
      + apply Qltb_false in E20. simpl.
        assert (H20 : Qle_bool 20 avg = true) by (apply Qle_bool_iff, E20).
        assert (H25 : Qle_bool avg 25 = true) by (apply Qle_bool_iff, E25).
        rewrite H20, H25. simpl.
        split; [intros H'; exfalso; exact (Hsnoc _ H')|].
        intros (_ & _ & H' & _). exfalso. lra. }
  rewrite <- Hparts. split.
  - intros E. apply concat_nonempty in E.
    + destruct (explain_parts now recommendation history date);
        [reflexivity | discriminate E].
    + intros x Hx. apply in_map_iff in Hx. destruct Hx as (c & <- & _).
      apply render_nonempty.
  - intros ->. reflexivity.
Qed.

(** ** More on the visit store *)

Lemma filter_filter_comm {A : Type} (f g : A -> bool) (l : list A) :
  filter f (filter g l) = filter g (filter f l).
Proof.
  induction l as [|x l IH]; simpl; [reflexivity|].
  destruct (f x) eqn:Ef, (g x) eqn:Eg; simpl; rewrite ?Ef, ?Eg, IH;
    reflexivity.
Qed.


Lemma same_key_iff (date restaurant : string) (v : Visit.t) :
  same_key date restaurant v = true
  <-> Visit.date v = date /\ Visit.restaurant v = restaurant.
Proof.
  unfold same_key. rewrite andb_true_iff, !String.eqb_eq. tauto.
Qed.



(** X23.  Deletions commute with one another, and a deletion commutes with the
    logging of a visit it does not match: the stored history is the same in
    either order. *)
Theorem visit_operations_commute :
  forall (now : datetime) (date restaurant : string) (s : Store),
    (forall date' restaurant',
        fst (delete_visit date restaurant
               (fst (delete_visit date' restaurant' s)))
        = fst (delete_visit date' restaurant'
                 (fst (delete_visit date restaurant s))))
    /\ (forall restaurant' price item date',
           ~ (date_or_today date' now = date /\ restaurant' = restaurant) ->
           fst (delete_visit date restaurant
                  (fst (add_visit now restaurant' price item date' s)))
           = fst (add_visit now restaurant' price item date'
                    (fst (delete_visit date restaurant s)))).
Proof.
  intros now date restaurant s. split.
  - intros date' restaurant'. unfold delete_visit, save_history.
    cbn [fst load_history visits]. rewrite filter_filter_comm. reflexivity.
  - intros restaurant' price item date' Hkey.
    unfold delete_visit, add_visit, save_history.
    cbn [fst load_history visits]. rewrite filter_app. cbn [filter].
    change (String.eqb
              (Visit.date (Visit.mk (date_or_today date' now) restaurant'
                             price item)) date
            && String.eqb
                 (Visit.restaurant (Visit.mk (date_or_today date' now)
                                      restaurant' price item)) restaurant)
      with (same_key date restaurant
              (Visit.mk (date_or_today date' now) restaurant' price item)).
    destruct (same_key _ _ _) eqn:E; [|reflexivity].
    apply same_key_iff in E. contradiction.
Qed.

Lemma visit_operations_commute_witness :
  fst (delete_visit "2024-03-07" "A"
         (fst (add_visit Sample.sunday "B" 35 "Mandi" None
                 (Some Sample.all_recent))))
  = fst (add_visit Sample.sunday "B" 35 "Mandi" None
           (fst (delete_visit "2024-03-07" "A" (Some Sample.all_recent)))).
Proof.
  apply (visit_operations_commute Sample.sunday "2024-03-07" "A"
           (Some Sample.all_recent)).
  intros [_ H]. discriminate H.
Defined.

(** ** The calendar: written dates read back, in the order of the days *)

Lemma month_day_ok_all :
  forallb (fun k => month_day_ok false (Z.of_nat k)) (seq 0 365)
  && forallb (fun k => month_day_ok true (Z.of_nat k)) (seq 0 366) = true.
Proof. vm_compute. reflexivity. Qed.

Lemma month_day_spec (leapyear : bool) (n : Z) :
  0 <= n < 365 + b2z leapyear -> month_day_ok leapyear n = true.
Proof.
  intros Hn. pose proof month_day_ok_all as H.
  apply andb_true_iff in H. destruct H as [Hf Ht].
  rewrite forallb_forall in Hf, Ht.
  rewrite <- (Z2Nat.id n) by lia.
  destruct leapyear; [apply Ht | apply Hf]; apply in_seq; simpl in *; lia.
Qed.

Lemma ord2ymd_eq (n0 : Z) :
  ord2ymd n0 =
  let n := n0 - 1 in
  let n400 := n / 146097 in let n := n mod 146097 in
  let n100 := n / 36524 in let n := n mod 36524 in
  let n4 := n / 1461 in let n := n mod 1461 in
  let n1 := n / 365 in let n := n mod 365 in
  let year := n400 * 400 + 1 + n100 * 100 + n4 * 4 + n1 in
  if (n1 =? 4) || (n100 =? 4) then (year - 1, 12, 31)
  else
    let leapyear := (n1 =? 3) && (negb (n4 =? 24) || (n100 =? 3)) in
    (year, fst (month_day leapyear n), snd (month_day leapyear n)).
Proof.
  unfold ord2ymd, month_day. cbv zeta.
  destruct (_ || _); [reflexivity|].
  destruct (_ <? _); reflexivity.
Qed.

Lemma is_leap_cycle (a b c e : Z) :
  0 <= b <= 3 -> 0 <= c <= 24 -> 0 <= e <= 3 ->
  is_leap (400 * a + 100 * b + 4 * c + e + 1)
  = (e =? 3) && (negb (c =? 24) || (b =? 3)).
Proof.
  intros Hb Hc He. unfold is_leap.
  set (y := 400 * a + 100 * b + 4 * c + e + 1).
  assert (H4 : y mod 4 = (e + 1) mod 4).
  { subst y. replace (400 * a + 100 * b + 4 * c + e + 1)
      with (e + 1 + (100 * a + 25 * b + c) * 4) by lia.
    apply Z.mod_add. lia. }
  assert (H100 : y mod 100 = (4 * c + e + 1) mod 100).
  { subst y. replace (400 * a + 100 * b + 4 * c + e + 1)
      with (4 * c + e + 1 + (4 * a + b) * 100) by lia.
    apply Z.mod_add. lia. }
  assert (H400 : y mod 400 = (100 * b + 4 * c + e + 1) mod 400).
  { subst y. replace (400 * a + 100 * b + 4 * c + e + 1)
      with (100 * b + 4 * c + e + 1 + a * 400) by lia.
    apply Z.mod_add. lia. }
  assert (P4 : y mod 4 = 0 <-> e = 3).
  { rewrite H4. pose proof (Z.mod_pos_bound (e + 1) 4 eq_refl).
    pose proof (Z.div_mod (e + 1) 4 ltac:(lia)). split; intros; nia. }
  assert (P100 : y mod 100 = 0 <-> c = 24 /\ e = 3).
  { rewrite H100. pose proof (Z.mod_pos_bound (4 * c + e + 1) 100 eq_refl).
    pose proof (Z.div_mod (4 * c + e + 1) 100 ltac:(lia)).
    split; intros; nia. }
  assert (P400 : y mod 400 = 0 <-> b = 3 /\ c = 24 /\ e = 3).
  { rewrite H400.
    pose proof (Z.mod_pos_bound (100 * b + 4 * c + e + 1) 400 eq_refl).
    pose proof (Z.div_mod (100 * b + 4 * c + e + 1) 400 ltac:(lia)).
    split; intros; nia. }
  destruct (Z.eqb_spec (y mod 4) 0), (Z.eqb_spec (y mod 100) 0),
    (Z.eqb_spec (y mod 400) 0), (Z.eqb_spec e 3), (Z.eqb_spec c 24),
    (Z.eqb_spec b 3); cbn [negb andb orb]; try reflexivity; exfalso; tauto.
Qed.

Lemma days_before_year_cycle (a b c e : Z) :
  0 <= b <= 3 -> 0 <= c <= 24 -> 0 <= e <= 3 ->
  days_before_year (400 * a + 100 * b + 4 * c + e + 1)
  = 146097 * a + 36524 * b + 1461 * c + 365 * e.
Proof.
  intros Hb Hc He. unfold days_before_year. cbv zeta.
  replace (400 * a + 100 * b + 4 * c + e + 1 - 1)
    with (400 * a + 100 * b + 4 * c + e) by lia.
  assert (H4 : (400 * a + 100 * b + 4 * c + e) / 4 = 100 * a + 25 * b + c).
  { symmetry. apply (Z.div_unique _ 4 _ e); lia. }
  assert (H100 : (400 * a + 100 * b + 4 * c + e) / 100 = 4 * a + b).
  { symmetry. apply (Z.div_unique _ 100 _ (4 * c + e)); lia. }
  assert (H400 : (400 * a + 100 * b + 4 * c + e) / 400 = a).
  { symmetry. apply (Z.div_unique _ 400 _ (100 * b + 4 * c + e)); lia. }
  rewrite H4, H100, H400. lia.
Qed.

Lemma days_in_month_table (y m : Z) :
  1 <= m <= 12 ->
  days_in_month y m
  = nth (Z.to_nat m) table_days_in_month 0 + b2z ((m =? 2) && is_leap y).
Proof.
  intros Hm.
  assert (H : m = 1 \/ m = 2 \/ m = 3 \/ m = 4 \/ m = 5 \/ m = 6 \/ m = 7
              \/ m = 8 \/ m = 9 \/ m = 10 \/ m = 11 \/ m = 12) by lia.
  unfold days_in_month.
  repeat (destruct H as [-> | H]; [cbn; destruct (is_leap y); reflexivity|]).
  subst m. reflexivity.
Qed.

Lemma ord2ymd_spec (n : Z) :
  1 <= n <= 3652059 ->
  valid_date (fst (fst (ord2ymd n))) (snd (fst (ord2ymd n)))
    (snd (ord2ymd n))
  /\ ymd2ord (fst (fst (ord2ymd n))) (snd (fst (ord2ymd n)))
       (snd (ord2ymd n)) = n.
Proof.
  intros Hn. rewrite ord2ymd_eq. cbv zeta.
  pose proof (Z.div_mod (n - 1) 146097 ltac:(lia)) as D1.
  pose proof (Z.mod_pos_bound (n - 1) 146097 eq_refl) as B1.
  set (a := (n - 1) / 146097) in *. set (r1 := (n - 1) mod 146097) in *.
  pose proof (Z.div_mod r1 36524 ltac:(lia)) as D2.
  pose proof (Z.mod_pos_bound r1 36524 eq_refl) as B2.
  set (b := r1 / 36524) in *. set (r2 := r1 mod 36524) in *.
  pose proof (Z.div_mod r2 1461 ltac:(lia)) as D3.
  pose proof (Z.mod_pos_bound r2 1461 eq_refl) as B3.
  set (c := r2 / 1461) in *. set (r3 := r2 mod 1461) in *.
  pose proof (Z.div_mod r3 365 ltac:(lia)) as D4.
  pose proof (Z.mod_pos_bound r3 365 eq_refl) as B4.
  set (e := r3 / 365) in *. set (r4 := r3 mod 365) in *.
  assert (Ha : 0 <= a <= 24) by lia.
  assert (Hb : 0 <= b <= 4) by lia.
  assert (Hc : 0 <= c <= 24) by lia.
  assert (He : 0 <= e <= 4) by lia.
  destruct (Z.eqb_spec e 4) as [E4 | E4];
    [|destruct (Z.eqb_spec b 4) as [B4' | B4']]; cbn [orb fst snd].
  - (* last day of a four-year cycle *)
    assert (Hy : a * 400 + 1 + b * 100 + c * 4 + e - 1
                 = 400 * a + 100 * b + 4 * c + 3 + 1) by lia.
    rewrite Hy.
    assert (Hb3 : 0 <= b <= 3) by lia.
    assert (Hc23 : 0 <= c <= 23) by lia.
    unfold valid_date, ymd2ord, days_before_month.
    rewrite days_in_month_table by lia.
    rewrite (is_leap_cycle a b c 3) by lia.
    rewrite (days_before_year_cycle a b c 3) by lia.
    destruct (Z.eqb_spec c 24); [lia|].
    change (nth (Z.to_nat 12) table_days_in_month 0) with 31.
    change (nth (Z.to_nat 12) table_days_before_month 0) with 334.
    change (12 =? 2) with false. change (2 <? 12) with true.
    change (3 =? 3) with true. cbn [andb orb negb b2z]. lia.
  - (* last day of a four-hundred-year cycle *)
    assert (Hy : a * 400 + 1 + b * 100 + c * 4 + e - 1
                 = 400 * a + 100 * 3 + 4 * 24 + 3 + 1) by lia.
    rewrite Hy.
    unfold valid_date, ymd2ord, days_before_month.
    rewrite days_in_month_table by lia.
    rewrite (is_leap_cycle a 3 24 3) by lia.
    rewrite (days_before_year_cycle a 3 24 3) by lia.
    change (nth (Z.to_nat 12) table_days_in_month 0) with 31.
    change (nth (Z.to_nat 12) table_days_before_month 0) with 334.
    change (12 =? 2) with false. change (2 <? 12) with true.
    change (3 =? 3) with true. change (24 =? 24) with true.
    cbn [andb orb negb b2z]. lia.
  - assert (Hy : a * 400 + 1 + b * 100 + c * 4 + e
                 = 400 * a + 100 * b + 4 * c + e + 1) by lia.
    rewrite Hy.
    set (leapyear := (e =? 3) && (negb (c =? 24) || (b =? 3))).
    assert (Hl : is_leap (400 * a + 100 * b + 4 * c + e + 1) = leapyear)
      by (apply is_leap_cycle; lia).
    pose proof (month_day_spec leapyear r4) as Hmd.
    unfold month_day_ok in Hmd.
    destruct (month_day leapyear r4) as [m d]. cbn [fst snd].
    assert (Hr4 : 0 <= r4 < 365 + b2z leapyear)
      by (destruct leapyear; simpl; lia).
    specialize (Hmd Hr4).
    repeat (apply andb_true_iff in Hmd; destruct Hmd as [Hmd ?]).
    unfold valid_date, ymd2ord, days_before_month.
    rewrite days_in_month_table by lia.
    rewrite Hl, (days_before_year_cycle a b c e) by lia.
    lia.
Qed.

Lemma code_digit (k : Z) : code (digit k) = 48 + k mod 10.
Proof.
  unfold code, digit.
  pose proof (Z.mod_pos_bound k 10 eq_refl) as Hk.
  rewrite N_ascii_embedding by lia. lia.
Qed.

Lemma is_digit_digit (k : Z) : is_digit (digit k) = true.
Proof.
  unfold is_digit, in_range. rewrite code_digit.
  pose proof (Z.mod_pos_bound k 10 eq_refl) as Hk.
  change (code "0") with 48. change (code "9") with 57.
  apply andb_true_iff. split; apply Z.leb_le; lia.
Qed.

Lemma digit_val_digit (k : Z) : digit_val (digit k) = k mod 10.
Proof. unfold digit_val. rewrite code_digit. lia. Qed.

Lemma four_digits (y : Z) :
  0 <= y <= 9999 ->
  (y / 1000) mod 10 * 1000 + (y / 100) mod 10 * 100 + (y / 10) mod 10 * 10
  + y mod 10 = y.
Proof. intros Hy. Z.div_mod_to_equations. lia. Qed.

Lemma parse_month_pad2 (m : Z) (rest : list ascii) :
  1 <= m <= 12 ->
  parse_month (digit (m / 10) :: digit m :: "-"%char :: rest) = Some (m, rest).
Proof.
  intros Hm.
  assert (H : m = 1 \/ m = 2 \/ m = 3 \/ m = 4 \/ m = 5 \/ m = 6 \/ m = 7
              \/ m = 8 \/ m = 9 \/ m = 10 \/ m = 11 \/ m = 12) by lia.
  repeat (destruct H as [-> | H]; [reflexivity|]).
  subst m. reflexivity.
Qed.

Lemma parse_day_pad2_all :
  forallb (fun k =>
             match parse_day [digit (Z.of_nat k / 10); digit (Z.of_nat k)] with
             | Some d => d =? Z.of_nat k
             | None => false
             end) (seq 1 31) = true.
Proof. vm_compute. reflexivity. Qed.

Lemma parse_day_pad2 (d : Z) :
  1 <= d <= 31 -> parse_day [digit (d / 10); digit d] = Some d.
Proof.
  intros Hd. pose proof parse_day_pad2_all as H.
  rewrite forallb_forall in H.
  specialize (H (Z.to_nat d) ltac:(apply in_seq; lia)).
  rewrite Z2Nat.id in H by lia.
  destruct (parse_day _) as [d'|]; [|discriminate].
  apply Z.eqb_eq in H. congruence.
Qed.

Lemma days_in_month_le_31 (y m : Z) : days_in_month y m <= 31.
Proof.
  unfold days_in_month.
  destruct (m =? 2); [destruct (is_leap y); lia|].
  destruct (_ || _); lia.
Qed.

Lemma strptime_format_date (y m d : Z) :
  valid_date y m d ->
  strptime (format_date y m d) = Some (mk_datetime (ymd2ord y m d) 0).
Proof.
  intros (Hy & Hm & Hd).
  pose proof (days_in_month_le_31 y m) as H31.
  unfold strptime.
  change (list_ascii_of_string (format_date y m d))
    with [digit (y / 1000); digit (y / 100); digit (y / 10); digit y;
          "-"%char; digit (m / 10); digit m; "-"%char;
          digit (d / 10); digit d].
  cbv beta iota.
  rewrite !is_digit_digit. cbn [andb].
  rewrite !digit_val_digit, four_digits by lia.
  rewrite parse_month_pad2 by lia.
  rewrite parse_day_pad2 by lia.
  assert (H1 : (1 <=? y) = true) by (apply Z.leb_le; lia).
  assert (H2 : (d <=? days_in_month y m) = true) by (apply Z.leb_le; lia).
  rewrite H1, H2. reflexivity.
Qed.

Lemma valid_day_ordinal (d : datetime) :
  valid_day d -> 1 <= toordinal d <= 3652059.
Proof. unfold valid_day. lia. Qed.

Lemma strptime_strftime (d : datetime) :
  valid_day d ->
  strptime (strftime d) = Some (mk_datetime (toordinal d) 0).
Proof.
  intros Hd.
  destruct (ord2ymd_spec (toordinal d) (valid_day_ordinal d Hd)) as [Hv Ho].
  change (strftime d)
    with (format_date (year d) (month d) (day d)).
  unfold year, month, day.
  rewrite strptime_format_date by exact Hv. rewrite Ho. reflexivity.
Qed.

Lemma compare_digit (a b : Z) :
  Ascii.compare (digit a) (digit b) = (a mod 10 ?= b mod 10).
Proof.
  unfold Ascii.compare, digit.
  pose proof (Z.mod_pos_bound a 10 eq_refl) as Ha.
  pose proof (Z.mod_pos_bound b 10 eq_refl) as Hb.
  rewrite !N_ascii_embedding by lia.
  rewrite Z2N.inj_compare by lia.
  apply Z.add_compare_mono_l.
Qed.

Lemma two_digits (m : Z) :
  0 <= m <= 99 -> (m / 10) mod 10 * 10 + m mod 10 = m.
Proof. intros Hm. Z.div_mod_to_equations. lia. Qed.

Lemma compare_format_date (y m d y' m' d' : Z) :
  0 <= y <= 9999 -> 0 <= m <= 99 -> 0 <= d <= 99 ->
  0 <= y' <= 9999 -> 0 <= m' <= 99 -> 0 <= d' <= 99 ->
  String.compare (format_date y m d) (format_date y' m' d')
  = (date_key y m d ?= date_key y' m' d').
Proof.
  intros Hy Hm Hd Hy' Hm' Hd'.
  change (format_date y m d)
    with (String (digit (y / 1000)) (String (digit (y / 100))
          (String (digit (y / 10)) (String (digit y)
          (String "-" (String (digit (m / 10)) (String (digit m)
          (String "-" (String (digit (d / 10)) (String (digit d)
          EmptyString)))))))))).
  change (format_date y' m' d')
    with (String (digit (y' / 1000)) (String (digit (y' / 100))
          (String (digit (y' / 10)) (String (digit y')
          (String "-" (String (digit (m' / 10)) (String (digit m')
          (String "-" (String (digit (d' / 10)) (String (digit d')
          EmptyString)))))))))).
  cbn [String.compare]. rewrite !compare_digit.
  change (Ascii.compare "-" "-") with Eq. cbv iota.
  unfold date_key.
  pose proof (four_digits y Hy) as Ey. pose proof (four_digits y' Hy') as Ey'.
  pose proof (two_digits m Hm) as Em. pose proof (two_digits m' Hm') as Em'.
  pose proof (two_digits d Hd) as Ed. pose proof (two_digits d' Hd') as Ed'.
  pose proof (Z.mod_pos_bound (y / 1000) 10 eq_refl).
  pose proof (Z.mod_pos_bound (y / 100) 10 eq_refl).
  pose proof (Z.mod_pos_bound (y / 10) 10 eq_refl).
  pose proof (Z.mod_pos_bound y 10 eq_refl).
  pose proof (Z.mod_pos_bound (m / 10) 10 eq_refl).
  pose proof (Z.mod_pos_bound m 10 eq_refl).
  pose proof (Z.mod_pos_bound (d / 10) 10 eq_refl).
  pose proof (Z.mod_pos_bound d 10 eq_refl).
  pose proof (Z.mod_pos_bound (y' / 1000) 10 eq_refl).
  pose proof (Z.mod_pos_bound (y' / 100) 10 eq_refl).
  pose proof (Z.mod_pos_bound (y' / 10) 10 eq_refl).
  pose proof (Z.mod_pos_bound y' 10 eq_refl).
  pose proof (Z.mod_pos_bound (m' / 10) 10 eq_refl).
  pose proof (Z.mod_pos_bound m' 10 eq_refl).
  pose proof (Z.mod_pos_bound (d' / 10) 10 eq_refl).
  pose proof (Z.mod_pos_bound d' 10 eq_refl).
  set (a3 := (y / 1000) mod 10) in *. set (a2 := (y / 100) mod 10) in *.
  set (a1 := (y / 10) mod 10) in *. set (a0 := y mod 10) in *.
  set (b1 := (m / 10) mod 10) in *. set (b0 := m mod 10) in *.
  set (c1 := (d / 10) mod 10) in *. set (c0 := d mod 10) in *.
  set (a3' := (y' / 1000) mod 10) in *. set (a2' := (y' / 100) mod 10) in *.
  set (a1' := (y' / 10) mod 10) in *. set (a0' := y' mod 10) in *.
  set (b1' := (m' / 10) mod 10) in *. set (b0' := m' mod 10) in *.
  set (c1' := (d' / 10) mod 10) in *. set (c0' := d' mod 10) in *.
  clearbody a3 a2 a1 a0 b1 b0 c1 c0 a3' a2' a1' a0' b1' b0' c1' c0'.
  subst y m d y' m' d'.
  repeat match goal with
         | |- context [?x ?= ?y] =>
             match goal with
             | |- match (x ?= y) with _ => _ end = _ =>
                 destruct (Z.compare_spec x y);
                 [ | symmetry; apply Z.compare_lt_iff; lia
                   | symmetry; apply Z.compare_gt_iff; lia ]
             end
         end.
  symmetry. apply Z.compare_eq_iff. lia.
Qed.

Lemma days_before_year_succ (y : Z) :
  days_before_year (y + 1) = days_before_year y + 365 + b2z (is_leap y).
Proof.
  unfold days_before_year, is_leap. cbv zeta.
  replace (y + 1 - 1) with y by lia.
  destruct (Z.eqb_spec (y mod 4) 0), (Z.eqb_spec (y mod 100) 0),
    (Z.eqb_spec (y mod 400) 0); cbn [andb orb negb b2z];
    Z.div_mod_to_equations; lia.
Qed.

Lemma days_before_year_monotone (y y' : Z) :
  y <= y' -> days_before_year y <= days_before_year y'.
Proof.
  intros Hy. unfold days_before_year. cbv zeta.
  Z.div_mod_to_equations. lia.
Qed.

Ltac eval_tables :=
  repeat match goal with
         | |- context [nth (Z.to_nat ?k) ?t 0] =>
             let v := eval vm_compute in (nth (Z.to_nat k) t 0) in
             change (nth (Z.to_nat k) t 0) with v
         | H : context [nth (Z.to_nat ?k) ?t 0] |- _ =>
             let v := eval vm_compute in (nth (Z.to_nat k) t 0) in
             change (nth (Z.to_nat k) t 0) with v in H
         | |- context [b2z ?e] =>
             let v := eval vm_compute in (b2z e) in
             change (b2z e) with v
         | H : context [b2z ?e] |- _ =>
             let v := eval vm_compute in (b2z e) in
             change (b2z e) with v in H
         end.

Lemma months_in_order (leap : bool) (m m' : Z) :
  1 <= m -> m < m' -> m' <= 12 ->
  nth (Z.to_nat m) table_days_before_month 0 + b2z ((2 <? m) && leap)
  + (nth (Z.to_nat m) table_days_in_month 0 + b2z ((m =? 2) && leap))
  <= nth (Z.to_nat m') table_days_before_month 0 + b2z ((2 <? m') && leap).
Proof.
  intros H1 H2 H3.
  assert (Hm : m = 1 \/ m = 2 \/ m = 3 \/ m = 4 \/ m = 5 \/ m = 6 \/ m = 7
               \/ m = 8 \/ m = 9 \/ m = 10 \/ m = 11) by lia.
  assert (Hm' : m' = 2 \/ m' = 3 \/ m' = 4 \/ m' = 5 \/ m' = 6 \/ m' = 7
                \/ m' = 8 \/ m' = 9 \/ m' = 10 \/ m' = 11 \/ m' = 12) by lia.
  destruct leap;
    repeat (destruct Hm as [Hm | Hm]); subst m;
    repeat (destruct Hm' as [Hm' | Hm']); subst m';
    try lia; eval_tables; lia.
Qed.

Lemma year_length (y m d : Z) :
  valid_date y m d ->
  1 <= days_before_month y m + d <= 365 + b2z (is_leap y).
Proof.
  intros (_ & Hm & Hd). rewrite days_in_month_table in Hd by exact Hm.
  unfold days_before_month.
  assert (H : m = 1 \/ m = 2 \/ m = 3 \/ m = 4 \/ m = 5 \/ m = 6 \/ m = 7
              \/ m = 8 \/ m = 9 \/ m = 10 \/ m = 11 \/ m = 12) by lia.
  destruct (is_leap y);
    repeat (destruct H as [H | H]); subst m; eval_tables; lia.
Qed.

Lemma ymd2ord_lt (y m d y' m' d' : Z) :
  valid_date y m d -> valid_date y' m' d' ->
  date_key y m d < date_key y' m' d' ->
  ymd2ord y m d < ymd2ord y' m' d'.
Proof.
  intros Hv Hv' Hk.
  pose proof (year_length y m d Hv) as Hl.
  pose proof (year_length y' m' d' Hv') as Hl'.
  destruct Hv as (Hy & Hm & Hd). destruct Hv' as (Hy' & Hm' & Hd').
  pose proof (days_in_month_le_31 y m). pose proof (days_in_month_le_31 y' m').
  unfold date_key in Hk. unfold ymd2ord.
  assert (Hcases : y < y' \/ (y = y' /\ m < m') \/ (y = y' /\ m = m' /\ d < d'))
    by lia.
  destruct Hcases as [Hlt | [[-> Hlt] | (-> & -> & Hlt)]].
  - pose proof (days_before_year_succ y) as Hs.
    pose proof (days_before_year_monotone (y + 1) y' ltac:(lia)). lia.
  - pose proof (months_in_order (is_leap y') m m' ltac:(lia) Hlt ltac:(lia))
      as Hmo.
    rewrite days_in_month_table in Hd by lia.
    unfold days_before_month. lia.
  - lia.
Qed.

Lemma date_key_injective (y m d y' m' d' : Z) :
  valid_date y m d -> valid_date y' m' d' ->
  date_key y m d = date_key y' m' d' -> y = y' /\ m = m' /\ d = d'.
Proof.
  intros (Hy & Hm & Hd) (Hy' & Hm' & Hd') Hk.
  pose proof (days_in_month_le_31 y m). pose proof (days_in_month_le_31 y' m').
  unfold date_key in Hk. lia.
Qed.

Lemma compare_strftime (d1 d2 : datetime) :
  valid_day d1 -> valid_day d2 ->
  String.compare (strftime d1) (strftime d2)
  = (toordinal d1 ?= toordinal d2).
Proof.
  intros H1 H2.
  destruct (ord2ymd_spec (toordinal d1) (valid_day_ordinal d1 H1))
    as [Hv1 Ho1].
  destruct (ord2ymd_spec (toordinal d2) (valid_day_ordinal d2 H2))
    as [Hv2 Ho2].
  change (strftime d1) with (format_date (year d1) (month d1) (day d1)).
  change (strftime d2) with (format_date (year d2) (month d2) (day d2)).
  unfold year, month, day.
  set (y1 := fst (fst (ord2ymd (toordinal d1)))) in *.
  set (m1 := snd (fst (ord2ymd (toordinal d1)))) in *.
  set (dd1 := snd (ord2ymd (toordinal d1))) in *.
  set (y2 := fst (fst (ord2ymd (toordinal d2)))) in *.
  set (m2 := snd (fst (ord2ymd (toordinal d2)))) in *.
  set (dd2 := snd (ord2ymd (toordinal d2))) in *.
  pose proof (days_in_month_le_31 y1 m1). pose proof (days_in_month_le_31 y2 m2).
  rewrite compare_format_date
    by (destruct Hv1 as (? & ? & ?), Hv2 as (? & ? & ?); lia).
  rewrite <- Ho1, <- Ho2.
  destruct (Z.compare_spec (date_key y1 m1 dd1) (date_key y2 m2 dd2))
    as [E | L | L].
  - destruct (date_key_injective _ _ _ _ _ _ Hv1 Hv2 E) as (-> & -> & ->).
    symmetry. apply Z.compare_refl.
  - symmetry. apply Z.compare_lt_iff. apply ymd2ord_lt; assumption.
  - symmetry. apply Z.compare_gt_iff. apply ymd2ord_lt; assumption.
Qed.

Lemma leb_strftime (d1 d2 : datetime) :
  valid_day d1 -> valid_day d2 ->
  String.leb (strftime d1) (strftime d2) = true
  <-> toordinal d1 <= toordinal d2.
Proof.
  intros H1 H2. unfold String.leb. rewrite compare_strftime by assumption.
  destruct (Z.compare_spec (toordinal d1) (toordinal d2));
    split; intros; try reflexivity; try lia; discriminate.
Qed.

Lemma max_string_last (l : list string) (m x : string) :
  String.leb m x = true ->
  (forall s, In s l -> String.leb s x = true) ->
  fold_left (fun m s => if String.ltb m s then s else m) (l ++ [x]) m = x.
Proof.
  revert m. induction l as [|s l IH]; intros m Hm Hl; simpl.
  - unfold String.ltb, String.leb in *.
    destruct (String.compare m x) eqn:E; try reflexivity; try discriminate.
    apply String.compare_eq_iff in E. exact E.
  - apply IH; [|intros; apply Hl; right; assumption].
    destruct (String.ltb m s); [apply Hl; left; reflexivity | exact Hm].
Qed.

(** ** Logged visits, the recent window and the day count *)

Lemma recommendation_not_recent `{Sorter} (now : datetime)
    (restaurants : list Restaurant.t) (history : History)
    (date : option datetime) (rec : Recommendation.t) :
  get_recommendation now restaurants history date = Ok (Some rec) ->
  exclude_recent (get_recent_restaurant_names now history 7)
    (get_available_restaurants restaurants (date_or_now date now)) <> [] ->
  isin (get_recent_restaurant_names now history 7) (Recommendation.name rec)
  = false.
Proof.
  intros E Hne.
  destruct (is_work_day (date_or_now date now)) eqn:Hw.
  2:{ rewrite get_recommendation_none in E by auto. discriminate. }
  destruct (get_available_restaurants restaurants (date_or_now date now))
    as [|r0 rs0] eqn:Ha.
  { rewrite get_recommendation_none in E by auto. discriminate. }
  destruct (get_recommendation_cases now restaurants history date Hw)
    as [(scored & top & rest & Es & Et & Er) | (_ & _ & Er)];
    [rewrite Ha; discriminate | | congruence].
  rewrite Er in E. injection E as <-.
  assert (Hin : In top scored).
  { eapply Permutation_in; [apply sort_values_perm|]. rewrite Et. left.
    reflexivity. }
  destruct (scored_row _ _ _ _ _ _ Es Hin) as [Hrow _].
  unfold scored_pool in Hrow. rewrite Ha in Hrow.
  destruct (exclude_recent _ (r0 :: rs0)) as [|x xs] eqn:Ex; [congruence|].
  rewrite <- Ex in Hrow. unfold exclude_recent in Hrow.
  apply filter_In in Hrow. destruct Hrow as [_ Hn].
  apply negb_true_iff in Hn. exact Hn.
Qed.

Lemma logged_visit_recent (logged now : datetime) (restaurant : string)
    (price : Q) (item : string) (s : Store) :
  valid_day logged -> valid_day (minus_days now 7) ->
  In (Visit.mk (strftime logged) restaurant price item)
    (get_recent_visits now
       (load_history (fst (add_visit logged restaurant price item None s)))
       7)
  <-> toordinal now - toordinal logged <= 7.
Proof.
  intros Hl Hn. unfold get_recent_visits, add_visit, save_history.
  cbn [fst load_history visits date_or_today].
  rewrite filter_In. cbn [Visit.date].
  rewrite (leb_strftime (minus_days now 7) logged Hn Hl).
  unfold minus_days. cbn [toordinal].
  split; [intros [_ H]; lia|]. intros H. split; [|lia].
  apply in_or_app. right. left. reflexivity.
Qed.

(** X24.  A visit logged under the date of the clock counts as recent for as long
    as the clock is at most seven days further: on the seventh day after
    the visit the restaurant is still among the recent names, and the
    logged visit leaves the recent visits on the eighth. *)
Theorem logged_visit_recent_for_a_week :
  forall (logged now : datetime) (restaurant : string) (price : Q)
         (item : string) (s : Store),
    valid_day logged -> valid_day (minus_days now 7) ->
    let history :=
      load_history (fst (add_visit logged restaurant price item None s)) in
    (In (Visit.mk (strftime logged) restaurant price item)
       (get_recent_visits now history 7)
     <-> toordinal now - toordinal logged <= 7)
    /\ (toordinal now - toordinal logged <= 7 ->
        isin (get_recent_restaurant_names now history 7) restaurant = true).
Proof.
  intros logged now restaurant price item s Hl Hn history.
  pose proof (logged_visit_recent logged now restaurant price item s Hl Hn)
    as Hiff.
  split; [exact Hiff|]. intros Hd. apply Hiff in Hd.
  unfold isin, get_recent_restaurant_names. apply existsb_exists.
  exists restaurant. split; [|apply String.eqb_refl].
  apply in_map_iff. eexists. split; [|exact Hd]. reflexivity.
Qed.

Lemma logged_visit_recent_for_a_week_witness :
  isin
    (get_recent_restaurant_names Sample.sunday
       (load_history
          (fst (add_visit (mk_datetime 738948 0) "A" 15 "Kabsa" None None)))
       7) "A" = true.
Proof.
  apply (logged_visit_recent_for_a_week (mk_datetime 738948 0) Sample.sunday
           "A" 15 "Kabsa" None); vm_compute;
    first [split; discriminate | discriminate].
Defined.

(** X25.  A restaurant logged under the date of the clock is not recommended while
    the clock is at most seven days further, as long as some available
    restaurant is left once the recent names are taken out. *)
Theorem logged_restaurant_rests_a_week :
  forall (S : Sorter) (logged now : datetime)
         (restaurants : list Restaurant.t) (restaurant : string) (price : Q)
         (item : string) (s : Store) (date : option datetime)
         (rec : Recommendation.t),
    valid_day logged -> valid_day (minus_days now 7) ->
    toordinal now - toordinal logged <= 7 ->
    let history :=
      load_history (fst (add_visit logged restaurant price item None s)) in
    exclude_recent (get_recent_restaurant_names now history 7)
      (get_available_restaurants restaurants (date_or_now date now)) <> [] ->
    get_recommendation now restaurants history date = Ok (Some rec) ->
    Recommendation.name rec <> restaurant.
Proof.
  intros S logged now restaurants restaurant price item s date rec Hl Hn Hd
    history Hne E Hname.
  pose proof (recommendation_not_recent now restaurants history date rec E Hne)
    as Hnot.
  pose proof (logged_visit_recent logged now restaurant price item s Hl Hn)
    as Hiff.
  apply Hiff in Hd.
  assert (Hin : isin (get_recent_restaurant_names now history 7) restaurant
                = true).
  { unfold isin, get_recent_restaurant_names. apply existsb_exists.
    exists restaurant. split; [|apply String.eqb_refl].
    apply in_map_iff. eexists. split; [|exact Hd]. reflexivity. }
  rewrite Hname in Hnot. congruence.
Qed.

Lemma logged_restaurant_rests_a_week_witness :
  Recommendation.name
    (Recommendation.mk "B" "South" "Mandi" 35 15 999 (100 # 100) (88 # 100)
       (94 # 100)) <> "A"%string.
Proof.
  apply (logged_restaurant_rests_a_week insertion_sorter Sample.sunday
           Sample.monday [Sample.A; Sample.B] "A" 15 "Kabsa" None
           (Some Sample.monday)).
  - vm_compute. split; discriminate.
  - vm_compute. split; discriminate.
  - vm_compute. discriminate.
  - vm_compute. discriminate.
  - vm_compute. reflexivity.
Defined.

(** X26.  After a visit is logged under the date of a clock, the day count of the
    restaurant on a later (or earlier) clock is the difference of the two
    clock days, provided no stored visit to that restaurant carries a later
    date. *)
Theorem days_since_logged_visit :
  forall (logged now : datetime) (restaurant : string) (price : Q)
         (item : string) (s : Store),
    valid_day logged -> valid_clock now ->
    (forall v, In v (visits (load_history s)) ->
               Visit.restaurant v = restaurant ->
               String.leb (Visit.date v) (strftime logged) = true) ->
    get_days_since_visit now restaurant
      (load_history (fst (add_visit logged restaurant price item None s)))
    = Ok (toordinal now - toordinal logged).
Proof.
  intros logged now restaurant price item s Hl [Hn Hs] Hold.
  unfold get_days_since_visit, add_visit, save_history.
  cbn [fst load_history visits date_or_today].
  rewrite filter_app. cbn [filter Visit.restaurant].
  rewrite String.eqb_refl.
  set (old := filter (fun v => String.eqb (Visit.restaurant v) restaurant)
                (visits (load_history s))).
  assert (Hall : forall v, In v old ->
                           String.leb (Visit.date v) (strftime logged) = true).
  { intros v Hv. apply filter_In in Hv. destruct Hv as [Hv Hr].
    apply String.eqb_eq in Hr. auto. }
  assert (Hmax : match old ++ [Visit.mk (strftime logged) restaurant price
                                 item] with
                 | [] => True
                 | v :: vs =>
                     max_string (Visit.date v) (map Visit.date vs)
                     = strftime logged
                 end).
  { destruct old as [|v0 rest]; [reflexivity|]. simpl app.
    unfold max_string. rewrite map_app. simpl map.
    apply max_string_last.
    - apply Hall. left. reflexivity.
    - intros x Hx. apply in_map_iff in Hx. destruct Hx as (v & <- & Hv).
      apply Hall. right. exact Hv. }
  destruct (old ++ _) as [|v vs] eqn:E.
  - apply app_eq_nil in E. destruct E as [_ E]. discriminate E.
  - rewrite Hmax, (strptime_strftime logged Hl).
    rewrite days_between_midnight by (try reflexivity; exact Hs).
    reflexivity.
Qed.

Lemma days_since_logged_visit_witness :
  get_days_since_visit Sample.thursday "A"
    (load_history
       (fst (add_visit Sample.sunday "A" 15 "Kabsa" None
               (Some Sample.all_recent))))
  = Ok (toordinal Sample.thursday - toordinal Sample.sunday).
Proof.
  apply (days_since_logged_visit Sample.sunday Sample.thursday "A" 15
           "Kabsa" (Some Sample.all_recent)).
  - vm_compute. split; discriminate.
  - vm_compute. repeat split; discriminate.
  - intros v [<- | [<- | []]] Hr; [reflexivity | discriminate Hr].
Defined.

Lemma dates_valid_app (vs ws : list Visit.t) :
  dates_valid (mk_history (vs ++ ws))
  = dates_valid (mk_history vs) && dates_valid (mk_history ws).
Proof. unfold dates_valid. simpl. apply forallb_app. Qed.

(** X27.  The dates of the store stay readable.  A store without a file reads as a
    history whose dates all read; logging a visit under the date of the
    clock, or under a given date that reads, keeps it so, and so does every
    deletion; a recommendation computed from such a store raises nothing. *)
Theorem store_dates_stay_readable :
  forall (S : Sorter) (s : Store),
    dates_valid (load_history None) = true
    /\ (dates_valid (load_history s) = true ->
        (forall logged restaurant price item,
            valid_day logged ->
            dates_valid
              (load_history
                 (fst (add_visit logged restaurant price item None s)))
            = true)
        /\ (forall logged restaurant price item date,
               date <> ""%string -> strptime date <> None ->
               dates_valid
                 (load_history
                    (fst (add_visit logged restaurant price item (Some date)
                            s)))
               = true)
        /\ (forall date restaurant,
               dates_valid
                 (load_history (fst (delete_visit date restaurant s)))
               = true)
        /\ (forall now restaurants date,
               exists result,
                 get_recommendation now restaurants (load_history s) date
                 = Ok result)).
Proof.
  intros S s. split; [reflexivity|]. intros Hv.
  split; [|split; [|split]].
  - intros logged restaurant price item Hl.
    unfold add_visit, save_history. cbn [fst load_history date_or_today].
    rewrite dates_valid_app. destruct (load_history s) as [vs].
    cbn [visits] in *. rewrite Hv. unfold dates_valid.
    cbn [visits forallb Visit.date andb].
    rewrite (strptime_strftime logged Hl). reflexivity.
  - intros logged restaurant price item date Hne Hd.
    unfold add_visit, save_history. cbn [fst load_history date_or_today].
    apply String.eqb_neq in Hne. rewrite Hne.
    rewrite dates_valid_app. destruct (load_history s) as [vs].
    cbn [visits] in *. rewrite Hv. unfold dates_valid.
    cbn [visits forallb Visit.date andb].
    destruct (strptime date); [reflexivity | congruence].
  - intros date restaurant. unfold delete_visit, save_history.
    cbn [fst load_history]. unfold dates_valid in *. cbn [visits].
    rewrite forallb_forall in *. intros v Hin. apply filter_In in Hin.
    apply Hv. tauto.
  - intros now restaurants date.
    destruct (get_recommendation now restaurants (load_history s) date)
      as [result|e] eqn:E; [eauto|].
    exfalso.
    destruct (is_work_day (date_or_now date now)) eqn:Hw.
    2:{ rewrite get_recommendation_none in E by auto. discriminate. }
    destruct (get_available_restaurants restaurants (date_or_now date now))
      as [|r0 rs0] eqn:Ha.
    { rewrite get_recommendation_none in E by auto. discriminate. }
    destruct (get_recommendation_cases now restaurants (load_history s) date
                Hw)
      as [(scored & top & rest & _ & _ & Er) | (_ & Hbad & _)];
      [rewrite Ha; discriminate | congruence | congruence].
Qed.

Lemma store_dates_stay_readable_witness :
  dates_valid
    (load_history
       (fst (add_visit Sample.sunday "A" 15 "Kabsa" None
               (Some Sample.all_recent))))
  = true.
Proof.
  destruct (store_dates_stay_readable insertion_sorter
              (Some Sample.all_recent)) as [_ Hkeep].
  destruct (Hkeep eq_refl) as [Hadd _].
  apply Hadd. vm_compute. split; discriminate.
Defined.

(** ** When the budget does not discriminate *)

Lemma recency_of_days_order (x y : Z) :
  (recency_of_days x <= recency_of_days y)%Q -> Z.min x 30 <= Z.min y 30.
Proof.
  unfold recency_of_days, Qdiv. change (/ 30)%Q with (1 # 30)%Q.
  intros H. rewrite Zle_Qle. lra.
Qed.

(** X17.  On Thursday, and on the other days while the displayed average lies
    from 20 to 25, the recency alone decides: with dates that read, the
    recommendation is a candidate whose day count, capped at 30, is the
    largest among the candidates scored. *)
Theorem recency_decides_when_budget_is_flat :
  forall (S : Sorter) (now : datetime) (restaurants : list Restaurant.t)
         (history : History) (date : option datetime),
    let day := date_or_now date now in
    let avg := current_average (get_monthly_stats now history) in
    dates_valid history = true ->
    is_work_day day = true ->
    get_available_restaurants restaurants day <> [] ->
    is_thursday day = true \/ (20 <= avg <= 25)%Q ->
    exists rec,
      get_recommendation now restaurants history date = Ok (Some rec)
      /\ forall r days,
          In r (scored_pool now restaurants history day) ->
          get_days_since_visit now (Restaurant.name r) history = Ok days ->
          Z.min days 30 <= Z.min (Recommendation.days_since_visit rec) 30.
Proof.
  intros S now restaurants history date day avg Hv Hw Ha Hflat.
  destruct (get_recommendation_some now restaurants history date Hv Hw Ha)
    as (scored & top & Es & Htop & Hmax & Er).
  fold day in Es.
  exists (to_recommendation top). split; [exact Er|].
  intros r days Hr Hd. cbn [to_recommendation Recommendation.days_since_visit].
  pose proof (calculate_scores_rows _ _ _ _ _ Es) as Hrows.
  destruct (Forall2_In_l _ _ _ _ Hrows Hr)
    as (s & Hs & _ & Hds & Hrs & Hbs & Hfs).
  destruct (scored_row _ _ _ _ _ _ Es Htop) as (_ & _ & _ & Hrt & Hbt & Hft).
  rewrite Hd in Hds. injection Hds as ->.
  apply recency_of_days_order. rewrite <- Hrs, <- Hrt.
  pose proof (Hmax s Hs) as Hge. unfold score_ge in Hge.
  rewrite Hfs, Hft, Hbs, Hbt in Hge.
  unfold final_column, budget_column in Hge. fold avg in Hge.
  destruct (is_thursday day); [exact Hge|].
  destruct Hflat as [Hthu | [H20 H25]]; [discriminate|].
  assert (E25 : Qltb 25 avg = false) by (apply Qltb_false; exact H25).
  assert (E20 : Qltb avg 20 = false) by (apply Qltb_false; exact H20).
  rewrite E25, E20 in Hge. lra.
Qed.

Lemma recency_decides_when_budget_is_flat_witness :
  exists rec,
    get_recommendation Sample.sunday [Sample.A; Sample.B] Sample.all_recent
      (Some Sample.thursday) = Ok (Some rec)
    /\ Z.min 1 30 <= Z.min (Recommendation.days_since_visit rec) 30.
Proof.
  destruct (recency_decides_when_budget_is_flat insertion_sorter
              Sample.sunday [Sample.A; Sample.B] Sample.all_recent
              (Some Sample.thursday) eq_refl eq_refl)
    as (rec & E & Hmax).
  - vm_compute. discriminate.
  - left. reflexivity.
  - exists rec. split; [exact E|].
    apply (Hmax Sample.B 1); [right; left; reflexivity | reflexivity].
Defined.

(** ** The statistics and the order of the history *)




